(** * Restful-Blog-API: the post controller over a model of its store

    A shallow embedding of [controllers/postController.js] and of the
    schema of [models/Post.js], with the parts of JavaScript, Express,
    Mongoose and MongoDB that the five handlers rely on.

    Conventions of the embedding.
    - A JavaScript string is a [string]; each [ascii] stands for one UTF-16
      code unit in the range 0..255, so [String.length] is the [.length]
      of the source.
    - A JSON request body is a [gmap string value]; a key that is absent
      reads as [None], which is JavaScript's [undefined].  Only scalar
      JSON values are modelled (no nested objects or arrays), and the
      numbers of a body are integer numerals.
    - A JavaScript number is a double.  The numbers of this program have
      integer values or are infinite: a finite one is held as the integer
      that is its value, and [JS.infinity] and its opposite stand for the
      two infinities; [NaN] is the [None] of an [option].  The count of
      the posts of a collection is held exactly: a collection has fewer
      than 2^53 posts.
    - Query parameters are strings: [req.query] is a [gmap string string].
    - Timestamps are milliseconds since the epoch, read from the clock
      once per request and passed to the handler as [now].
    - Every call a handler makes on the Mongoose model is recorded, in
      order, in the [calls] of its outcome. *)

From Stdlib Require Import ZArith Lia Bool Ascii String List.
From Stdlib Require Import Sorted Permutation.
From Stdlib Require Import Decimal DecimalString DecimalN DecimalZ.
From stdpp Require Import base option strings gmap.

Local Open Scope string_scope.
Local Open Scope list_scope.
Local Open Scope Z_scope.

(** ** JavaScript values and string primitives *)

Module JS.

Inductive value : Type :=
  | VNull
  | VBool (b : bool)
  | VNum (n : Z)
  | VStr (s : string).

(** [ToBoolean], on a property that may be [undefined]. *)
Definition truthy (v : option value) : bool :=
  match v with
  | None => false
  | Some VNull => false
  | Some (VBool b) => b
  | Some (VNum n) => negb (Z.eqb n 0)
  | Some (VStr s) => negb (String.eqb s "")
  end.

(** White space of [String.prototype.trim] and of [parseInt], among the
    code units below 256: TAB, LF, VT, FF, CR, SP and NBSP. *)
Definition isWhiteSpace (c : ascii) : bool :=
  let n := N_of_ascii c in
  ((9 <=? n) && (n <=? 13) || (n =? 32) || (n =? 160))%N.

Fixpoint trimStart (s : string) : string :=
  match s with
  | EmptyString => EmptyString
  | String c s' => if isWhiteSpace c then trimStart s' else s
  end.

Fixpoint trimEnd (s : string) : string :=
  match s with
  | EmptyString => EmptyString
  | String c s' =>
      match trimEnd s' with
      | EmptyString => if isWhiteSpace c then EmptyString else String c EmptyString
      | r => String c r
      end
  end.

Definition trim (s : string) : string := trimEnd (trimStart s).

(** ASCII case folding, as the [i] option of a regular expression does
    on code units below 128. *)
Definition toLower (c : ascii) : ascii :=
  let n := N_of_ascii c in
  if ((65 <=? n) && (n <=? 90))%N then ascii_of_N (n + 32) else c.

Fixpoint toLowerCase (s : string) : string :=
  match s with
  | EmptyString => EmptyString
  | String c s' => String (toLower c) (toLowerCase s')
  end.

(** The longest prefix of decimal digits, as a [Decimal.uint]. *)
Fixpoint leadingDigits (s : string) : Decimal.uint :=
  match s with
  | EmptyString => Nil
  | String c s' =>
      match c with
      | "0"%char => D0 (leadingDigits s')
      | "1"%char => D1 (leadingDigits s')
      | "2"%char => D2 (leadingDigits s')
      | "3"%char => D3 (leadingDigits s')
      | "4"%char => D4 (leadingDigits s')
      | "5"%char => D5 (leadingDigits s')
      | "6"%char => D6 (leadingDigits s')
      | "7"%char => D7 (leadingDigits s')
      | "8"%char => D8 (leadingDigits s')
      | "9"%char => D9 (leadingDigits s')
      | _ => Nil
      end
  end.

(** The decimal numeral of an integer. *)
Definition decimal (n : Z) : string := NilZero.string_of_int (Z.to_int n).

(** What stands for [Infinity]: 2^1024, the value that rounding gives
    past the largest double, 2^1024 - 2^971. *)
Definition infinity : Z := 2 ^ 1024.

Definition isFinite (x : Z) : bool := Z.abs x <? infinity.

(** A natural number rounded to 53 significant bits, to the nearest and
    on a tie to the even significand. *)
Definition roundSignificand (n : Z) : Z :=
  if n <? 2 ^ 53 then n
  else
    let e := Z.log2 n - 52 in
    let q := Z.shiftr n e in
    let r := n - Z.shiftl q e in
    let half := Z.shiftl 1 (e - 1) in
    let q' := if (r <? half) || ((r =? half) && Z.even q) then q else q + 1 in
    Z.shiftl q' e.

(** The double nearest to an integer: the integer itself below 2^53 in
    absolute value, an infinity from 2^1024 - 2^970 on. *)
Definition toDouble (n : Z) : Z :=
  Z.sgn n * Z.min (roundSignificand (Z.abs n)) infinity.

(** [parseInt(s, 10)] on a string: leading white space is skipped, one
    sign is read, then the longest run of digits is the value; [None] is
    [NaN].  The result is the double nearest to the integer that the
    digits denote. *)
Definition parseIntDigits (neg : bool) (s : string) : option Z :=
  match leadingDigits s with
  | Nil => None
  | d => let n := Z.of_N (N.of_uint d) in Some (toDouble (if neg then - n else n))
  end.

(** The optional sign in front of the digits: whether it is a minus, and
    what follows it. *)
Definition readSign (s : string) : bool * string :=
  match s with
  | String "-"%char s' => (true, s')
  | String "+"%char s' => (false, s')
  | _ => (false, s)
  end.

Definition parseInt10 (s : string) : option Z :=
  let (neg, digits) := readSign (trimStart s) in parseIntDigits neg digits.

(** [parseInt(x, 10)] on a query parameter: [undefined] is first turned
    into the string ["undefined"]. *)
Definition parseInt (x : option string) : option Z :=
  match x with
  | None => parseInt10 "undefined"
  | Some s => parseInt10 s
  end.

(** [n || d] on a number: [NaN] and [0] are falsy. *)
Definition orDefault (n : option Z) (d : Z) : Z :=
  match n with
  | Some k => if Z.eqb k 0 then d else k
  | None => d
  end.

(** The integer with the fewest significant digits whose nearest double
    is [x], and of these the one nearest to [x]: with [k] digits it is
    one of the two multiples of 10^(digits - k) around [x].  Seventeen
    digits always tell a double from its neighbours. *)
Fixpoint shortestFrom (ks : list nat) (digits : nat) (x : Z) : Z :=
  match ks with
  | [] => x
  | k :: ks' =>
      if (digits <=? k)%nat then x
      else
        let p := 10 ^ Z.of_nat (digits - k) in
        let lo := x / p * p in
        let hi := lo + p in
        match toDouble lo =? x, toDouble hi =? x with
        | true, true =>
            if x - lo <? hi - x then lo
            else if hi - x <? x - lo then hi
            else if Z.even (x / p) then lo else hi
        | true, false => lo
        | false, true => hi
        | false, false => shortestFrom ks' digits x
        end
  end.

Definition shortest (x : Z) : Z :=
  shortestFrom (seq 1 17) (String.length (decimal x)) x.

(** A numeral without its trailing zeros. *)
Fixpoint stripZeros (s : string) : string :=
  match s with
  | EmptyString => EmptyString
  | String c s' =>
      match stripZeros s' with
      | EmptyString => if Ascii.eqb c "0"%char then EmptyString else String c EmptyString
      | r => String c r
      end
  end.

(** The exponent notation of a numeral of more than 21 digits: its
    first significant digit, the others after a point, and the exponent. *)
Definition exponential (digits : string) : string :=
  let e := decimal (Z.of_nat (String.length digits) - 1) in
  match stripZeros digits with
  | EmptyString => "0"
  | String c EmptyString => String c (String.append "e+" e)
  | String c rest =>
      String c (String.append "." (String.append rest (String.append "e+" e)))
  end.

(** [String(n)] on the number that the integer numeral [n] denotes,
    which is the double nearest to [n]: the digits of [n] itself below
    2^53; beyond, the shortest digits that tell this double from its
    neighbours, filled with zeros up to 21 digits and in exponent
    notation from 10^21 on. *)
Definition numberToString (n : Z) : string :=
  let x := toDouble n in
  if negb (isFinite x) then (if x <? 0 then "-Infinity" else "Infinity")
  else if Z.abs x <? 2 ^ 53 then decimal x
  else
    let digits := decimal (shortest (Z.abs x)) in
    String.append (if x <? 0 then "-" else "")
      (if (String.length digits <=? 21)%nat then digits else exponential digits).

(** The quotient of two positive integers rounded to an integer, to the
    nearest and on a tie to the even one. *)
Definition roundQuotient (num den : Z) : Z :=
  let q := num / den in
  let r := num mod den in
  if (2 * r <? den) || ((2 * r =? den) && Z.even q) then q else q + 1.

(** The binary digits after the point that the quotient of two positive
    integers has as a double: as many as give it 53 significant bits,
    and no more than 1074. *)
Definition quotientShift (a b : Z) : Z :=
  let s := 52 - Z.log2 a + Z.log2 b in
  let scaled := (a * 2 ^ Z.max s 0) / (b * 2 ^ Z.max (- s) 0) in
  Z.min (if scaled <? 2 ^ 52 then s + 1 else s) 1074.

(** [Math.ceil(a / b)] and [Math.floor(a / b)] for positive integers:
    the quotient is rounded to the nearest double, which is then rounded
    upwards or downwards to an integer. *)
Definition ceilQuotient (a b : Z) : Z :=
  let s := quotientShift a b in
  let m := roundQuotient (a * 2 ^ Z.max s 0) (b * 2 ^ Z.max (- s) 0) in
  if 0 <=? s then - ((- m) / 2 ^ s) else m * 2 ^ (- s).

Definition floorQuotient (a b : Z) : Z :=
  let s := quotientShift a b in
  let m := roundQuotient (a * 2 ^ Z.max s 0) (b * 2 ^ Z.max (- s) 0) in
  if 0 <=? s then m / 2 ^ s else m * 2 ^ (- s).

(** [Math.ceil(a / b)] for a count [a] and a number [b <> 0]: a count
    divided by an infinity is 0, and the ceiling of a negative quotient
    is the opposite of the floor of its absolute value. *)
Definition ceilDiv (a b : Z) : Z :=
  if negb (isFinite b) || (a =? 0) then 0
  else if 0 <? b then ceilQuotient a b
  else - floorQuotient a (- b).

(** [JSON.stringify] on a number: one that is not finite is written
    [null], here [None]. *)
Definition jsonNumber (x : Z) : option Z :=
  if isFinite x then Some x else None.

End JS.

(** ** Regular expressions of the [$regex] operator

    The controller hands the [author] and [search] query strings to the
    store as the source of a regular expression with option [i].  The
    fragment modelled here is: ordinary ASCII characters, which match
    themselves up to the case of letters, and the dot, which matches any
    character but a line feed.  A pattern that holds another
    metacharacter, a character outside ASCII (whose case folding is that
    of Unicode) or a NUL (which a BSON regular expression cannot carry)
    is outside the fragment, and [compile] answers [None] for it. *)

Module Regex.

Inductive atom : Type :=
  | Lit (c : ascii)
  | AnyChar.

Definition isMeta (c : ascii) : bool :=
  match c with
  | "\"%char | "^"%char | "$"%char | "."%char | "["%char | "]"%char
  | "|"%char | "("%char | ")"%char | "?"%char | "*"%char | "+"%char
  | "{"%char | "}"%char => true
  | _ => false
  end.

(** An ASCII character other than NUL that is not special in a pattern. *)
Definition isOrdinary (c : ascii) : bool :=
  let n := N_of_ascii c in
  ((1 <=? n) && (n <=? 127))%N && negb (isMeta c).

Fixpoint compile (p : string) : option (list atom) :=
  match p with
  | EmptyString => Some []
  | String c p' =>
      if Ascii.eqb c "."%char then cons AnyChar <$> compile p'
      else if isOrdinary c then cons (Lit c) <$> compile p'
      else None
  end.

Definition atomMatches (a : atom) (c : ascii) : bool :=
  match a with
  | Lit x => Ascii.eqb (JS.toLower x) (JS.toLower c)
  | AnyChar => negb (Ascii.eqb c "010"%char)
  end.

(** The atoms match a prefix of the subject. *)
Fixpoint matchHere (r : list atom) (s : string) : bool :=
  match r, s with
  | [], _ => true
  | _ :: _, EmptyString => false
  | a :: r', String c s' => atomMatches a c && matchHere r' s'
  end.

(** Unanchored search: the atoms match at some position of the subject. *)
Fixpoint test (r : list atom) (s : string) : bool :=
  matchHere r s ||
  match s with
  | EmptyString => false
  | String _ s' => test r s'
  end.

End Regex.

(** ** The schema of [models/Post.js] *)

Module Schema.

(** The options of a [String] path that the schema uses.  [required],
    [minlength] and [maxlength] carry their error message. *)
Record SchemaString : Type := {
  path : string;
  required : option string;
  trim : bool;
  minlength : option (nat * string);
  maxlength : option (nat * string)
}.

Definition title : SchemaString := {|
  path := "title";
  required := Some "Title is required";
  trim := true;
  minlength := Some (3%nat, "Title must be at least 3 characters long");
  maxlength := Some (100%nat, "Title cannot exceed 100 characters")
|}.

Definition content : SchemaString := {|
  path := "content";
  required := Some "Content is required";
  trim := true;
  minlength := Some (10%nat, "Content must be at least 10 characters long");
  maxlength := None
|}.

Definition author : SchemaString := {|
  path := "author";
  required := Some "Author name is required";
  trim := true;
  minlength := Some (2%nat, "Author name must be at least 2 characters long");
  maxlength := Some (50%nat, "Author name cannot exceed 50 characters")
|}.

(** The [String] paths of [postSchema], in the order of the source.  The
    remaining path, [createdAt], is a [Date] with default [Date.now]; the
    option [timestamps: true] maintains [createdAt] and [updatedAt]. *)
Definition postSchema : list SchemaString := [title; content; author].

End Schema.

(** ** Mongoose: casting, setters and validators of a [String] path *)

Module Mongoose.
Import Schema.

(** The cast of a scalar to [String]; [None] is [null]/[undefined],
    which the cast leaves alone. *)
Definition castString (v : option JS.value) : option string :=
  match v with
  | None | Some JS.VNull => None
  | Some (JS.VBool true) => Some "true"
  | Some (JS.VBool false) => Some "false"
  | Some (JS.VNum n) => Some (JS.numberToString n)
  | Some (JS.VStr s) => Some s
  end.

Definition applySetters (sch : SchemaString) (v : option string) : option string :=
  if trim sch then JS.trim <$> v else v.

(** A validator: its test on the value of the path and its message. *)
Record validator : Type := { check : option string -> bool; message : string }.

Definition checkRequired (v : option string) : bool :=
  match v with
  | Some s => negb (String.eqb s "")
  | None => false
  end.

Definition minlengthValidator (n : nat) (v : option string) : bool :=
  match v with
  | Some s => (n <=? String.length s)%nat
  | None => true
  end.

Definition maxlengthValidator (n : nat) (v : option string) : bool :=
  match v with
  | Some s => (String.length s <=? n)%nat
  | None => true
  end.

(** The validators of a path: [required] is put in front, the others
    follow in the order of the schema options. *)
Definition validators (sch : SchemaString) : list validator :=
  match required sch with
  | Some m => [{| check := checkRequired; message := m |}]
  | None => []
  end ++
  match minlength sch with
  | Some (n, m) => [{| check := minlengthValidator n; message := m |}]
  | None => []
  end ++
  match maxlength sch with
  | Some (n, m) => [{| check := maxlengthValidator n; message := m |}]
  | None => []
  end.

(** [doValidate]: the validators run in order and the first that fails
    gives the error of the path. *)
Fixpoint firstFailure (vs : list validator) (v : option string) : option string :=
  match vs with
  | [] => None
  | f :: vs' => if check f v then firstFailure vs' v else Some (message f)
  end.

Definition doValidate (sch : SchemaString) (v : option string) : option string :=
  firstFailure (validators sch) v.

(** The value a path gets from a document or an update object. *)
Definition castPath (sch : SchemaString) (obj : gmap string JS.value) : option string :=
  applySetters sch (castString (obj !! path sch)).

(** The entry of [error.errors] for a path, if its value is invalid. *)
Definition validatePath (sch : SchemaString) (v : option string) : list (string * string) :=
  match doValidate sch v with
  | Some m => [(path sch, m)]
  | None => []
  end.

(** How a call on the model settles. *)
Inductive result (A : Type) : Type :=
  | Resolved (a : A)
  | ValidationError (errors : list (string * string))
  | MongoError (message : string).

Arguments Resolved {A} a.
Arguments ValidationError {A} errors.
Arguments MongoError {A} message.

End Mongoose.

(** ** The collection of posts and the calls of the [Post] model *)

(** An [ObjectId] is a 12-byte value, held as a number. *)
Definition ObjectId : Type := N.

Record Post : Type := {
  _id : ObjectId;
  title : string;
  content : string;
  author : string;
  createdAt : Z;
  updatedAt : Z
}.

(** The collection in its natural (insertion) order, and the source of
    fresh identifiers: the driver's generator is modelled by a counter
    that never hands out the same identifier twice. *)
Record Store : Type := {
  posts : list Post;
  nextId : ObjectId
}.

(** The filter that [getAllPosts] builds: [author] is the source of the
    [$regex] on the author, [or] the source of the two [$regex] of the
    [$or] on title and content; both with [$options: 'i']. *)
Record Filter : Type := {
  filterAuthor : option string;
  filterOr : option string
}.

Module Model.
Import Mongoose.

Definition regexField (src : option string) : option (string -> bool) :=
  match src with
  | None => Some (fun _ => true)
  | Some p => Regex.test <$> Regex.compile p
  end.

(** The predicate of a filter on a post; [None] when a pattern is outside
    the modelled fragment of regular expressions. *)
Definition matches (q : Filter) : option (Post -> bool) :=
  match regexField (filterAuthor q), regexField (filterOr q) with
  | Some fa, Some fs => Some (fun p => fa (author p) && (fs (title p) || fs (content p)))
  | _, _ => None
  end.

(** [sort({ createdAt: -1 })]: newest first, posts of equal [createdAt]
    stay in their natural order. *)
Fixpoint insertDesc (p : Post) (l : list Post) : list Post :=
  match l with
  | [] => [p]
  | q :: l' => if createdAt q <=? createdAt p then p :: l else q :: insertDesc p l'
  end.

Definition sortDesc (l : list Post) : list Post := foldr insertDesc [] l.

(** [skip] and [limit] as the server applies them: a negative [skip] is
    rejected, a negative [limit] counts as its absolute value and [0]
    as no limit.  The server reads both as 64-bit integers, a number
    beyond them as the largest one: more than any collection holds.
    After a negative [limit] the cursor is closed with its first batch,
    which is taken here to hold all the posts asked for. *)
Definition paginate (skip limit : Z) (l : list Post) : result (list Post) :=
  if skip <? 0 then MongoError "Skip value must be non-negative"
  else
    let rest := drop (Z.to_nat skip) l in
    Resolved (if limit =? 0 then rest else take (Z.to_nat (Z.abs limit)) rest).

(** [Post.find(query).sort({ createdAt: -1 }).skip(skip).limit(limit)] *)
Definition find (q : Filter) (skip limit : Z) (st : Store)
  : option (result (list Post)) :=
  f ← matches q; Some (paginate skip limit (sortDesc (List.filter f (posts st)))).

(** [Post.countDocuments(query)] *)
Definition countDocuments (q : Filter) (st : Store) : option Z :=
  f ← matches q; Some (Z.of_nat (length (List.filter f (posts st)))).

Fixpoint findOne (id : ObjectId) (l : list Post) : option Post :=
  match l with
  | [] => None
  | p :: l' => if N.eqb (_id p) id then Some p else findOne id l'
  end.

Fixpoint replaceOne (id : ObjectId) (p' : Post) (l : list Post) : list Post :=
  match l with
  | [] => []
  | p :: l' => if N.eqb (_id p) id then p' :: l' else p :: replaceOne id p' l'
  end.

Fixpoint deleteOne (id : ObjectId) (l : list Post) : list Post :=
  match l with
  | [] => []
  | p :: l' => if N.eqb (_id p) id then l' else p :: deleteOne id l'
  end.

(** [Post.findById(id)] *)
Definition findById (id : ObjectId) (st : Store) : option Post :=
  findOne id (posts st).

(** [Post.create(doc)]: the three paths are cast, trimmed and validated;
    a valid document gets a fresh [_id] and both timestamps, and is
    appended to the collection. *)
Definition create (now : Z) (doc : gmap string JS.value) (st : Store)
  : result Post * Store :=
  let t := castPath Schema.title doc in
  let c := castPath Schema.content doc in
  let a := castPath Schema.author doc in
  match validatePath Schema.title t ++ validatePath Schema.content c
        ++ validatePath Schema.author a, t, c, a with
  | [], Some t, Some c, Some a =>
      let p := {| _id := nextId st; title := t; content := c; author := a;
                  createdAt := now; updatedAt := now |} in
      (Resolved p, {| posts := posts st ++ [p]; nextId := N.succ (nextId st) |})
  | errors, _, _, _ => (ValidationError errors, st)
  end.

(** The value an update gives to a path: [None] when the update does
    not name the path, otherwise the cast and trimmed value. *)
Definition updatePath (sch : Schema.SchemaString) (upd : gmap string JS.value)
  : option (option string) :=
  match upd !! Schema.path sch with
  | None => None
  | Some _ => Some (castPath sch upd)
  end.

Definition validateUpdate (sch : Schema.SchemaString) (u : option (option string))
  : list (string * string) :=
  match u with
  | None => []
  | Some v => validatePath sch v
  end.

(** The field after [$set]; a [null] never gets here, the validators
    have refused it. *)
Definition setField (u : option (option string)) (old : string) : string :=
  match u with
  | Some (Some s) => s
  | _ => old
  end.

(** [Post.findByIdAndUpdate(id, upd, { new: true, runValidators: true })]:
    the validators of the paths named by the update run first; then the
    post, if there is one, gets the new values and a new [updatedAt].
    Mongoose casts the update into its [$set] walking the keys of the
    update from the last to the first, so that the paths are validated,
    and their errors listed, in the order author, content, title. *)
Definition findByIdAndUpdate (now : Z) (id : ObjectId) (upd : gmap string JS.value)
  (st : Store) : result (option Post) * Store :=
  let t := updatePath Schema.title upd in
  let c := updatePath Schema.content upd in
  let a := updatePath Schema.author upd in
  match validateUpdate Schema.author a ++ validateUpdate Schema.content c
        ++ validateUpdate Schema.title t with
  | [] =>
      match findOne id (posts st) with
      | None => (Resolved None, st)
      | Some p =>
          let p' := {| _id := _id p;
                       title := setField t (title p);
                       content := setField c (content p);
                       author := setField a (author p);
                       createdAt := createdAt p;
                       updatedAt := now |} in
          (Resolved (Some p'),
           {| posts := replaceOne id p' (posts st); nextId := nextId st |})
      end
  | errors => (ValidationError errors, st)
  end.

(** [Post.findByIdAndDelete(id)] *)
Definition findByIdAndDelete (id : ObjectId) (st : Store) : option Post * Store :=
  match findOne id (posts st) with
  | None => (None, st)
  | Some p => (Some p, {| posts := deleteOne id (posts st); nextId := nextId st |})
  end.

End Model.

(** ** The responses of the controller *)

(** The JSON envelopes that the handlers send.  A post in [data] is
    serialised by the schema's [toJSON] transform, which shows [_id]
    under the name [id]; the [error] detail of a 500 envelope depends on
    [NODE_ENV] and is left out.  The [page] of a listing is the number
    as JSON shows it: [None] is [null]. *)
Inductive Json : Type :=
  | Failure (message : string)
  | ValidationFailure (message : string) (errors : list string)
  | ServerFailure (message : string)
  | PostData (message : option string) (data : Post)
  | PageData (count total : Z) (page : option Z) (pages : Z) (data : list Post)
  | EmptyData (message : string).

Record Response : Type := { status : Z; json : Json }.

(** A call of a handler on the [Post] model. *)
Inductive Call : Type :=
  | CallCreate (doc : gmap string JS.value)
  | CallFind (q : Filter) (skip limit : Z)
  | CallCountDocuments (q : Filter)
  | CallFindById (id : ObjectId)
  | CallFindByIdAndUpdate (id : ObjectId) (upd : gmap string JS.value)
  | CallFindByIdAndDelete (id : ObjectId).

(** What a handler leaves behind: the response, the collection, and the
    calls it made on the model, in order. *)
Record Outcome : Type := {
  response : Response;
  store : Store;
  calls : list Call
}.

Definition respond (code : Z) (j : Json) (st : Store) (cs : list Call) : Outcome :=
  {| response := {| status := code; json := j |}; store := st; calls := cs |}.

(** [o[k] = v] unless [v] is [undefined]. *)
Definition setDefined (k : string) (v : option JS.value) (o : gmap string JS.value)
  : gmap string JS.value :=
  match v with
  | Some x => <[k := x]> o
  | None => o
  end.

(** [req.query.k] when it is truthy, that is a non-empty string. *)
Definition truthyParam (v : option string) : option string :=
  match v with
  | Some s => if String.eqb s "" then None else Some s
  | None => None
  end.

(** ** [controllers/postController.js] *)

Section Controller.

(** [castObjectId id] is the [ObjectId] that the string [id] denotes, if
    [mongoose.Types.ObjectId.isValid(id)]. *)
Variable castObjectId : string -> option ObjectId.

Definition createPost (now : Z) (body : gmap string JS.value) (st : Store) : Outcome :=
  let title := body !! "title" in
  let content := body !! "content" in
  let author := body !! "author" in
  if negb (JS.truthy title) || negb (JS.truthy content) || negb (JS.truthy author) then
    respond 400
      (Failure "Please provide all required fields: title, content, and author") st []
  else
    let doc := setDefined "author" author
                 (setDefined "content" content (setDefined "title" title ∅)) in
    match Model.create now doc st with
    | (Mongoose.Resolved post, st') =>
        respond 201 (PostData (Some "Post created successfully") post) st' [CallCreate doc]
    | (Mongoose.ValidationError errors, st') =>
        respond 400 (ValidationFailure "Validation failed" (snd <$> errors)) st'
          [CallCreate doc]
    | (Mongoose.MongoError _, st') =>
        respond 500 (ServerFailure "Server error while creating post") st' [CallCreate doc]
    end.

Definition buildQuery (query : gmap string string) : Filter :=
  {| filterAuthor := truthyParam (query !! "author");
     filterOr := truthyParam (query !! "search") |}.

(** [parseInt(req.query.page, 10) || 1] and [parseInt(req.query.limit, 10) || 10] *)
Definition queryPage (query : gmap string string) : Z :=
  JS.orDefault (JS.parseInt (query !! "page")) 1.

Definition queryLimit (query : gmap string string) : Z :=
  JS.orDefault (JS.parseInt (query !! "limit")) 10.

(** [skip] is held as the exact product.  The source computes it on
    doubles, rounding after the subtraction and after the product, and
    gets [NaN] for 0 times an infinity, which the server reads as 0; the
    exact product and the rounded one have the same sign and, where they
    differ, are both at least 2^53, so that they skip the same posts of a
    collection of fewer than 2^53 ([paginate_rounded_skip]).  The answer
    is [None] when [author] or [search] is a pattern outside the
    modelled fragment of regular expressions. *)
Definition getAllPosts (query : gmap string string) (st : Store) : option Outcome :=
  let q := buildQuery query in
  let page := queryPage query in
  let limit := queryLimit query in
  let skip := (page - 1) * limit in
  r ← Model.find q skip limit st;
  match r with
  | Mongoose.Resolved posts =>
      total ← Model.countDocuments q st;
      Some (respond 200
              (PageData (Z.of_nat (length posts)) total (JS.jsonNumber page)
                 (JS.ceilDiv total limit) posts)
              st [CallFind q skip limit; CallCountDocuments q])
  | _ =>
      Some (respond 500 (ServerFailure "Server error while fetching posts") st
              [CallFind q skip limit])
  end.

Definition getPostById (id : string) (st : Store) : Outcome :=
  match castObjectId id with
  | None => respond 400 (Failure "Invalid post ID format") st []
  | Some oid =>
      match Model.findById oid st with
      | None => respond 404 (Failure "Post not found") st [CallFindById oid]
      | Some post => respond 200 (PostData None post) st [CallFindById oid]
      end
  end.

Definition updatePost (now : Z) (id : string) (body : gmap string JS.value) (st : Store)
  : Outcome :=
  let title := body !! "title" in
  let content := body !! "content" in
  let author := body !! "author" in
  match castObjectId id with
  | None => respond 400 (Failure "Invalid post ID format") st []
  | Some oid =>
      let updateData := setDefined "author" author
                          (setDefined "content" content (setDefined "title" title ∅)) in
      if Nat.eqb (size updateData) 0 then
        respond 400 (Failure "No fields provided for update") st []
      else
        match Model.findByIdAndUpdate now oid updateData st with
        | (Mongoose.Resolved None, st') =>
            respond 404 (Failure "Post not found") st' [CallFindByIdAndUpdate oid updateData]
        | (Mongoose.Resolved (Some post), st') =>
            respond 200 (PostData (Some "Post updated successfully") post) st'
              [CallFindByIdAndUpdate oid updateData]
        | (Mongoose.ValidationError errors, st') =>
            respond 400 (ValidationFailure "Validation failed" (snd <$> errors)) st'
              [CallFindByIdAndUpdate oid updateData]
        | (Mongoose.MongoError _, st') =>
            respond 500 (ServerFailure "Server error while updating post") st'
              [CallFindByIdAndUpdate oid updateData]
        end
  end.

Definition deletePost (id : string) (st : Store) : Outcome :=
  match castObjectId id with
  | None => respond 400 (Failure "Invalid post ID format") st []
  | Some oid =>
      match Model.findByIdAndDelete oid st with
      | (None, st') => respond 404 (Failure "Post not found") st' [CallFindByIdAndDelete oid]
      | (Some _, st') =>
          respond 200 (EmptyData "Post deleted successfully") st' [CallFindByIdAndDelete oid]
      end
  end.

End Controller.

(** ** A concrete identifier syntax: 24 hexadecimal digits *)

Definition hexDigit (c : ascii) : option N :=
  let n := N_of_ascii c in
  if ((48 <=? n) && (n <=? 57))%N then Some (n - 48)%N
  else if ((97 <=? n) && (n <=? 102))%N then Some (n - 87)%N
  else if ((65 <=? n) && (n <=? 70))%N then Some (n - 55)%N
  else None.

Fixpoint hexValue (acc : N) (s : string) : option N :=
  match s with
  | EmptyString => Some acc
  | String c s' => d ← hexDigit c; hexValue (16 * acc + d)%N s'
  end.

Definition hexObjectId (id : string) : option ObjectId :=
  if Nat.eqb (String.length id) 24 then hexValue 0%N id else None.

Definition emptyStore : Store := {| posts := []; nextId := 0%N |}.

(** ** Vocabulary of the specification *)

(** The identifiers in the collection are pairwise distinct and were all
    handed out by the generator. *)
Definition storeOk (st : Store) : Prop :=
  NoDup (_id <$> posts st) /\ Forall (fun p => (_id p < nextId st)%N) (posts st).

(** A property of a request body that JavaScript takes for false: it is
    absent, [null], [false], [0] or the empty string. *)
Inductive falsy : option JS.value -> Prop :=
  | falsy_undefined : falsy None
  | falsy_null : falsy (Some JS.VNull)
  | falsy_false : falsy (Some (JS.VBool false))
  | falsy_zero : falsy (Some (JS.VNum 0))
  | falsy_empty : falsy (Some (JS.VStr "")).

(** The message for a field whose trimmed value has [n] characters; no
    message when [n] is within the bounds of the data model. *)
Definition titleError (n : nat) : list string :=
  if (n =? 0)%nat then ["Title is required"]
  else if (n <? 3)%nat then ["Title must be at least 3 characters long"]
  else if (100 <? n)%nat then ["Title cannot exceed 100 characters"]
  else [].

Definition contentError (n : nat) : list string :=
  if (n =? 0)%nat then ["Content is required"]
  else if (n <? 10)%nat then ["Content must be at least 10 characters long"]
  else [].

Definition authorError (n : nat) : list string :=
  if (n =? 0)%nat then ["Author name is required"]
  else if (n <? 2)%nat then ["Author name must be at least 2 characters long"]
  else if (50 <? n)%nat then ["Author name cannot exceed 50 characters"]
  else [].

(** The length of a string after trimming. *)
Definition trimmedLength (s : string) : nat := String.length (JS.trim s).

(** A field violates its length constraint. *)
Definition outOfBounds (lo : nat) (hi : option nat) (n : nat) : bool :=
  (n <? lo)%nat || match hi with Some h => (h <? n)%nat | None => false end.

Definition boolToNat (b : bool) : nat := if b then 1%nat else 0%nat.

(** A decimal digit. *)
Definition isDigit (c : ascii) : bool :=
  let n := N_of_ascii c in ((48 <=? n) && (n <=? 57))%N.



(** Newest first: every post is at least as recent as those after it. *)
Definition descending (l : list Post) : Prop :=
  StronglySorted (fun p q => createdAt q <= createdAt p) l.

(** The query with its page set to the numeral of [p]. *)
Definition withPage (query : gmap string string) (p : Z) : gmap string string :=
  <["page" := JS.decimal p]> query.

(** The posts in the answer of List; none if there is no page in it. *)
Definition pageData (o : option Outcome) : list Post :=
  match o with
  | Some out =>
      match json (response out) with
      | PageData _ _ _ _ data => data
      | _ => []
      end
  | None => []
  end.

(** [s] occurs in [t] as a substring, the case of ASCII letters apart. *)
Definition containsIgnoringCase (s t : string) : Prop :=
  exists u v : string,
    JS.toLowerCase t = String.append u (String.append (JS.toLowerCase s) v).

(** A string of ASCII characters none of which is special in a regular
    expression (and none of which is NUL). *)
Fixpoint plain (s : string) : bool :=
  match s with
  | EmptyString => true
  | String c s' => Regex.isOrdinary c && plain s'
  end.

(** The filter of List in the words of the specification: the author
    contains the [author] parameter, and the title or the content
    contains the [search] parameter, when these are given. *)
Definition selected (query : gmap string string) (p : Post) : Prop :=
  (forall a, query !! "author" = Some a -> containsIgnoringCase a (author p))
  /\ (forall s, query !! "search" = Some s ->
        containsIgnoringCase s (title p) \/ containsIgnoringCase s (content p)).

(** The object with the properties title, content and author, those
    that are defined. *)
Definition threeFields (t c a : option JS.value) : gmap string JS.value :=
  setDefined "author" a (setDefined "content" c (setDefined "title" t ∅)).

(** The object that [updatePost] hands to [findByIdAndUpdate]. *)
Definition updateDataOf (body : gmap string JS.value) : gmap string JS.value :=
  threeFields (body !! "title") (body !! "content") (body !! "author").

(** A property of an update body that is absent or whose value, as a
    string, is within the bounds [lo] and [hi] after trimming. *)
Definition withinBounds (lo : nat) (hi : option nat) (v : option JS.value) : Prop :=
  match v with
  | None => True
  | Some x =>
      match Mongoose.castString (Some x) with
      | Some s => outOfBounds lo hi (trimmedLength s) = false
      | None => False
      end
  end.

(** An update body that names at least one of the three fields and
    gives only values within their bounds. *)
Definition acceptableUpdate (body : gmap string JS.value) : Prop :=
  (is_Some (body !! "title") \/ is_Some (body !! "content") \/ is_Some (body !! "author"))
  /\ withinBounds 3 (Some 100%nat) (body !! "title")
  /\ withinBounds 10 None (body !! "content")
  /\ withinBounds 2 (Some 50%nat) (body !! "author").

(** An explicit [null], or a string that is empty after trimming. *)
Definition emptyValue (v : option JS.value) : Prop :=
  v = Some JS.VNull \/ exists s, v = Some (JS.VStr s) /\ trimmedLength s = 0%nat.

(** The value that a property of an update body gives to a field: the
    old value when the property is absent, else the given value cast to
    a string and trimmed. *)
Definition updatedField (v : option JS.value) (old : string) : option string :=
  match v with
  | None => Some old
  | Some x => JS.trim <$> Mongoose.castString (Some x)
  end.


(** ** Concrete requests and collections *)

Module Sample.

Definition helloBody : gmap string JS.value :=
  {[ "title" := JS.VStr "  Hello "; "content" := JS.VStr "0123456789";
     "author" := JS.VStr "Al" ]}.

(** A body whose title is the number 123. *)
Definition numberTitleBody : gmap string JS.value :=
  {[ "title" := JS.VNum 123; "content" := JS.VStr "0123456789";
     "author" := JS.VStr "Al" ]}.

(** A body without a title. *)
Definition noTitleBody : gmap string JS.value :=
  {[ "content" := JS.VStr "0123456789"; "author" := JS.VStr "Al" ]}.

(** A body with a title of blanks and a short content. *)
Definition shortBody : gmap string JS.value :=
  {[ "title" := JS.VStr "   "; "content" := JS.VStr "012"; "author" := JS.VStr "Al" ]}.

Definition helloPost : Post :=
  {| _id := 0%N; title := "Hello"; content := "0123456789"; author := "Al";
     createdAt := 1000; updatedAt := 1000 |}.

(** The collection after [helloBody] was created at time 1000. *)
Definition oneStore : Store := {| posts := [helloPost]; nextId := 1%N |}.

Definition negativePageQuery : gmap string string := {[ "page" := "-3" ]}.

(** The page 2^53 + 1, and the second page with a limit of 310 digits. *)
Definition roundedPageQuery : gmap string string := {[ "page" := "9007199254740993" ]}.

(** Three posts created in the order A, B, C. *)
Definition postA : Post :=
  {| _id := 0%N; title := "AAA"; content := "first post"; author := "Ann";
     createdAt := 1000; updatedAt := 1000 |}.
Definition postB : Post :=
  {| _id := 1%N; title := "BBB"; content := "second post"; author := "Bob";
     createdAt := 2000; updatedAt := 2000 |}.
Definition postC : Post :=
  {| _id := 2%N; title := "CCC"; content := "third post"; author := "Cyd";
     createdAt := 3000; updatedAt := 3000 |}.
Definition threeStore : Store := {| posts := [postA; postB; postC]; nextId := 3%N |}.

Definition limitTwoQuery : gmap string string := {[ "limit" := "2" ]}.

Definition dotQuery : gmap string string := {[ "search" := "." ]}.
Definition dotFilter : Filter := {| filterAuthor := None; filterOr := Some "." |}.
Definition searchQuery : gmap string string := {[ "search" := "SECOND"; "author" := "bo" ]}.

(** A well-formed identifier that no post has, and that of [helloPost]. *)
Definition unknownId : string := "0123456789abcdef01234567".
Definition helloId : string := "000000000000000000000000".

Definition retitleBody : gmap string JS.value := {[ "title" := JS.VStr " New title " ]}.
Definition nullTitleBody : gmap string JS.value := {[ "title" := JS.VNull ]}.
Definition emptyTitleBody : gmap string JS.value := {[ "title" := JS.VStr "" ]}.
Definition forgedBody : gmap string JS.value :=
  {[ "title" := JS.VStr "  Hello "; "content" := JS.VStr "0123456789";
     "author" := JS.VStr "Al"; "createdAt" := JS.VNum 1; "_id" := JS.VStr "ffff" ]}.

Definition noFilter : Filter := {| filterAuthor := None; filterOr := None |}.

End Sample.

(** The entries of [error.errors] that a property of an update object
    causes: none when the property is absent. *)
Definition pathErrors (sch : Schema.SchemaString) (v : option JS.value)
  : list (string * string) :=
  match v with
  | None => []
  | Some x =>
      Mongoose.validatePath sch (Mongoose.applySetters sch (Mongoose.castString (Some x)))
  end.

(** The envelope of a validation failure. *)
Definition validationFailed (errors : list string) : Response :=
  {| status := 400; json := ValidationFailure "Validation failed" errors |}.

(** ** Further vocabulary: invariants of the collection *)

(** A stored post obeys the schema: each field is trimmed and its length
    is within the bounds of its path. *)
Definition postOk (p : Post) : Prop :=
  JS.trim (title p) = title p /\ (3 <= String.length (title p) <= 100)%nat
  /\ JS.trim (content p) = content p /\ (10 <= String.length (content p))%nat
  /\ JS.trim (author p) = author p /\ (2 <= String.length (author p) <= 50)%nat.

Definition collectionOk (st : Store) : Prop := Forall postOk (posts st).

(** No post was updated before it was created. *)
Definition timestampsOk (st : Store) : Prop :=
  Forall (fun p => createdAt p <= updatedAt p) (posts st).

(** A Create body that gets through: the three properties are truthy
    and, cast to strings and trimmed, within their bounds. *)
Definition acceptableCreate (body : gmap string JS.value) : Prop :=
  JS.truthy (body !! "title") = true /\ JS.truthy (body !! "content") = true
  /\ JS.truthy (body !! "author") = true
  /\ withinBounds 3 (Some 100%nat) (body !! "title")
  /\ withinBounds 10 None (body !! "content")
  /\ withinBounds 2 (Some 50%nat) (body !! "author").

(** ** The [toJSON] transform of [models/Post.js] *)

(** A value in the plain object of a post. *)
Inductive Field : Type :=
  | FId (i : ObjectId)
  | FString (s : string)
  | FDate (t : Z).

(** The plain object that Mongoose hands to the transform: the paths of
    the document ([versionKey: false] leaves [__v] out). *)
Definition toObject (p : Post) : gmap string Field :=
  {[ "_id" := FId (_id p); "title" := FString (title p);
     "content" := FString (content p); "author" := FString (author p);
     "createdAt" := FDate (createdAt p); "updatedAt" := FDate (updatedAt p) ]}.

(** [ret.id = ret._id; delete ret._id; return ret].  A property set to
    [undefined] does not show in JSON and is taken off the object. *)
Definition transform (ret : gmap string Field) : gmap string Field :=
  delete "_id"
    match ret !! "_id" with
    | Some v => <["id" := v]> ret
    | None => delete "id" ret
    end.

Definition toJSON (p : Post) : gmap string Field := transform (toObject p).

(** ** The seeder *)

Module Seed.
Import Mongoose.

Definition document (t c a : string) : gmap string JS.value :=
  {[ "title" := JS.VStr t; "content" := JS.VStr c; "author" := JS.VStr a ]}.
Definition nodePost : gmap string JS.value :=
  document "Getting Started with Node.js"
    "Node.js is a powerful JavaScript runtime built on Chrome's V8 engine. It allows developers to run JavaScript on the server-side, enabling full-stack JavaScript development. In this comprehensive guide, we'll explore the fundamentals of Node.js, including its event-driven architecture, non-blocking I/O model, and the npm ecosystem. Understanding these concepts is crucial for building scalable and efficient web applications."
    "Sarah Johnson".
Definition restPost : gmap string JS.value :=
  document "Understanding RESTful API Design"
    "REST (Representational State Transfer) is an architectural style for designing networked applications. A well-designed RESTful API should be stateless, have a uniform interface, and use standard HTTP methods appropriately. This post covers best practices for API design including proper use of status codes, resource naming conventions, pagination strategies, and error handling patterns that make your APIs intuitive and developer-friendly."
    "Michael Chen".
Definition mongoPost : gmap string JS.value :=
  document "MongoDB Best Practices"
    "MongoDB is a popular NoSQL database that offers flexibility and scalability for modern applications. This article discusses essential best practices including schema design patterns, indexing strategies for optimal query performance, data modeling considerations, and when to use embedded documents versus references. We'll also cover connection pooling, write concerns, and read preferences for production deployments."
    "Emily Davis".
Definition samplePosts : list (gmap string JS.value) := [nodePost; restPost; mongoPost].

(** [Post.deleteMany(query)]: the posts that match are removed. *)
Definition deleteMany (q : Filter) (st : Store) : option Store :=
  f ← Model.matches q;
  Some {| posts := List.filter (fun p => negb (f p)) (posts st); nextId := nextId st |}.

(** The documents are validated and stored in order; when one is
    refused the collection stays as it was. *)
Fixpoint insertAll (now : Z) (docs : list (gmap string JS.value)) (st : Store)
  : result (list Post) * Store :=
  match docs with
  | [] => (Resolved [], st)
  | doc :: docs' =>
      match Model.create now doc st with
      | (Resolved p, st1) =>
          match insertAll now docs' st1 with
          | (Resolved ps, st2) => (Resolved (p :: ps), st2)
          | (ValidationError errors, _) => (ValidationError errors, st)
          | (MongoError m, _) => (MongoError m, st)
          end
      | (ValidationError errors, _) => (ValidationError errors, st)
      | (MongoError m, _) => (MongoError m, st)
      end
  end.

(** [Post.insertMany(docs)]: every document is validated first, and if
    one is refused none is stored. *)
Definition insertMany (now : Z) (docs : list (gmap string JS.value)) (st : Store)
  : result (list Post) * Store :=
  insertAll now docs st.

(** [seedDatabase], without its messages on the console: the collection
    is emptied, then the samples are inserted; the answer is the list of
    created posts, or the error that makes the process exit with 1. *)
Definition seedDatabase (now : Z) (st : Store) : option (result (list Post) * Store) :=
  st1 ← deleteMany {| filterAuthor := None; filterOr := None |} st;
  Some (insertMany now samplePosts st1).

End Seed.

(** The string that a document holds under a key; empty if there is none. *)
Definition stringAt (doc : gmap string JS.value) (k : string) : string :=
  match doc !! k with
  | Some (JS.VStr s) => s
  | _ => EmptyString
  end.

(** The post that a valid document of strings becomes. *)
Definition postOf (id : ObjectId) (now : Z) (doc : gmap string JS.value) : Post :=
  {| _id := id; title := stringAt doc "title"; content := stringAt doc "content";
     author := stringAt doc "author"; createdAt := now; updatedAt := now |}.

(** ** [routes/postRoutes.js] and [server.js]

    A request as Express presents it to the middleware: [req.method] (in
    upper case), [req.originalUrl], the segments of [req.path] (the text
    between the slashes, decoded; a trailing slash gives no segment),
    [req.query] and the parsed [req.body].  Routing compares segments up
    to the case of letters and a [get] route also answers HEAD, as
    Express does by default.  The logging middleware only writes to the
    console and is left out; so is the final error handler, which the
    handlers never call since each catches its own errors (a body that
    the parsers refuse is outside the model). *)

Module Server.

Record Request : Type := {
  method : string;
  originalUrl : string;
  path : list string;
  query : gmap string string;
  body : gmap string JS.value
}.

(** What is sent when no handler of the controller answers. *)
Inductive Payload : Type :=
  | StatusText
  | HealthInfo (timestamp : Z)
  | ApiInfo
  | RouteNotFound (message : string).

Inductive Reply : Type :=
  | FromController (o : Outcome)
  | Direct (code : Z) (p : Payload).

(** A middleware answers, or calls [next()]. *)
Inductive Step : Type :=
  | Next
  | Done (r : option Reply).

Definition fromController (o : option Outcome) : Step := Done (FromController <$> o).

(** A [get] route answers GET and HEAD. *)
Definition isGet (m : string) : bool := String.eqb m "GET" || String.eqb m "HEAD".

(** The path begins with the segments of the route; what is left. *)
Fixpoint stripPrefix (route path : list string) : option (list string) :=
  match route, path with
  | [], rest => Some rest
  | _ :: _, [] => None
  | r :: route', s :: path' =>
      if String.eqb r (JS.toLowerCase s) then stripPrefix route' path' else None
  end.

Definition matchesPath (route path : list string) : bool :=
  match stripPrefix route path with
  | Some [] => true
  | _ => false
  end.

(** The 404 handler: [Route <method> <originalUrl> not found]. *)
Definition notFound (req : Request) : Reply :=
  Direct 404
    (RouteNotFound
       (String.append "Route "
          (String.append (method req)
             (String.append " " (String.append (originalUrl req) " not found"))))).

Section Routes.

Variable castObjectId : string -> option ObjectId.

(** The router of [routes/postRoutes.js], on the path below its mount
    point: ['/'] is the empty path and ['/:id'] a single segment. *)
Definition postRoutes (now : Z) (req : Request) (rest : list string) (st : Store) : Step :=
  match rest with
  | [] =>
      if String.eqb (method req) "POST" then
        fromController (Some (createPost now (body req) st))
      else if isGet (method req) then fromController (getAllPosts (query req) st)
      else Next
  | [id] =>
      if isGet (method req) then fromController (Some (getPostById castObjectId id st))
      else if String.eqb (method req) "PUT" then
        fromController (Some (updatePost castObjectId now id (body req) st))
      else if String.eqb (method req) "DELETE" then
        fromController (Some (deletePost castObjectId id st))
      else Next
  | _ => Next
  end.

(** The middleware of [server.js] in order: the CORS middleware, the
    router mounted at [/api/posts], [/health], [/api] and the 404
    handler.  The answer is [None] when List is asked for a pattern
    outside the modelled regular expressions. *)
Definition app (now : Z) (req : Request) (st : Store) : option Reply :=
  if String.eqb (method req) "OPTIONS" then Some (Direct 200 StatusText)
  else
    match
      match stripPrefix ["api"; "posts"] (path req) with
      | Some rest => postRoutes now req rest st
      | None => Next
      end
    with
    | Done r => r
    | Next =>
        if isGet (method req) && matchesPath ["health"] (path req) then
          Some (Direct 200 (HealthInfo now))
        else if isGet (method req) && matchesPath ["api"] (path req) then
          Some (Direct 200 ApiInfo)
        else Some (notFound req)
    end.

End Routes.

(** The collection after a reply. *)
Definition storeAfter (st : Store) (r : Reply) : Store :=
  match r with
  | FromController o => store o
  | Direct _ _ => st
  end.

(** The calls on the model behind a reply. *)
Definition callsOf (r : Reply) : list Call :=
  match r with
  | FromController o => calls o
  | Direct _ _ => []
  end.

Definition statusOf (r : Reply) : Z :=
  match r with
  | FromController o => status (response o)
  | Direct code _ => code
  end.

End Server.

(** Concrete requests. *)
Module SampleRequest.

(** [DELETE /api/posts], with no identifier. *)
Definition deleteAll : Server.Request :=
  {| Server.method := "DELETE"; Server.originalUrl := "/api/posts";
     Server.path := ["api"; "posts"]; Server.query := ∅; Server.body := ∅ |}.

(** [DELETE /API/Posts/000000000000000000000000/] *)
Definition deleteHello : Server.Request :=
  {| Server.method := "DELETE";
     Server.originalUrl := "/API/Posts/000000000000000000000000/";
     Server.path := ["API"; "Posts"; "000000000000000000000000"];
     Server.query := ∅; Server.body := ∅ |}.

End SampleRequest.
(** ** Properties of the string primitives *)

Section Strings.

Lemma trimStart_length (s : string) :
  (String.length (JS.trimStart s) <= String.length s)%nat.
Proof.
  induction s as [|c s IH]; simpl; [lia|].
  destruct (JS.isWhiteSpace c); simpl; lia.
Qed.

Lemma trimEnd_length (s : string) :
  (String.length (JS.trimEnd s) <= String.length s)%nat.
Proof.
  induction s as [|c s IH]; simpl; [lia|].
  destruct (JS.trimEnd s); simpl in *; [destruct (JS.isWhiteSpace c); simpl; lia | lia].
Qed.

Lemma trim_length (s : string) :
  (String.length (JS.trim s) <= String.length s)%nat.
Proof.
  unfold JS.trim. etrans; [apply trimEnd_length | apply trimStart_length].
Qed.

Lemma trim_nonempty (s : string) :
  (0 < String.length (JS.trim s))%nat -> String.eqb s "" = false.
Proof.
  intros H. pose proof (trim_length s). destruct s; simpl in *; [lia | reflexivity].
Qed.

Lemma leadingDigits_string_of_uint (d : Decimal.uint) :
  JS.leadingDigits (NilEmpty.string_of_uint d) = d.
Proof. induction d; simpl; congruence. Qed.

(** ** Numbers *)

(** An integer below 2^53 in absolute value is a double. *)
Lemma toDouble_safe (n : Z) : Z.abs n < 2 ^ 53 -> JS.toDouble n = n.
Proof.
  intros H. unfold JS.toDouble, JS.roundSignificand, JS.infinity.
  destruct (Z.ltb_spec (Z.abs n) (2 ^ 53)); [|lia].
  assert (2 ^ 53 < 2 ^ 1024) by (apply Z.pow_lt_mono_r; lia).
  rewrite Z.min_l by lia. destruct n; simpl; lia.
Qed.

Lemma roundSignificand_pos (n : Z) : 0 < n -> 0 < JS.roundSignificand n.
Proof.
  intros Hn. unfold JS.roundSignificand.
  destruct (Z.ltb_spec n (2 ^ 53)) as [|Hbig]; [exact Hn|].
  assert (He : 53 <= Z.log2 n) by (apply Z.log2_le_pow2; lia).
  set (e := Z.log2 n - 52).
  assert (Hq : 0 < Z.shiftr n e).
  { rewrite Z.shiftr_div_pow2 by (subst e; lia).
    apply Z.div_str_pos. split; [apply Z.pow_pos_nonneg; subst e; lia|].
    etrans; [|apply (proj1 (Z.log2_spec n Hn))].
    apply Z.pow_le_mono_r; subst e; lia. }
  rewrite Z.shiftl_mul_pow2 by (subst e; lia).
  apply Z.mul_pos_pos; [|apply Z.pow_pos_nonneg; subst e; lia].
  destruct (_ || _); lia.
Qed.

(** Rounding keeps the sign: no integer but 0 is read as 0. *)
Lemma toDouble_sgn (n : Z) : Z.sgn (JS.toDouble n) = Z.sgn n.
Proof.
  unfold JS.toDouble.
  assert (Hinf : 0 < JS.infinity) by (unfold JS.infinity; apply Z.pow_pos_nonneg; lia).
  destruct n as [|p|p]; [reflexivity | |].
  - pose proof (roundSignificand_pos (Z.pos p) ltac:(lia)).
    change (Z.abs (Z.pos p)) with (Z.pos p). change (Z.sgn (Z.pos p)) with 1. lia.
  - pose proof (roundSignificand_pos (Z.pos p) ltac:(lia)).
    change (Z.abs (Z.neg p)) with (Z.pos p). change (Z.sgn (Z.neg p)) with (-1). lia.
Qed.

Lemma toDouble_nonzero (n : Z) : n <> 0 -> JS.toDouble n <> 0.
Proof. intros Hn E. pose proof (toDouble_sgn n) as H. rewrite E in H. simpl in H. lia. Qed.

Lemma isFinite_safe (n : Z) : Z.abs n < 2 ^ 53 -> JS.isFinite n = true.
Proof.
  intros H. unfold JS.isFinite, JS.infinity. apply Z.ltb_lt.
  assert (2 ^ 53 < 2 ^ 1024) by (apply Z.pow_lt_mono_r; lia). lia.
Qed.

(** Below 2^53 [String(n)] writes the digits of [n]. *)
Lemma numberToString_safe (n : Z) : Z.abs n < 2 ^ 53 -> JS.numberToString n = JS.decimal n.
Proof.
  intros H. unfold JS.numberToString. rewrite toDouble_safe by exact H.
  rewrite isFinite_safe by exact H. simpl.
  destruct (Z.ltb_spec (Z.abs n) (2 ^ 53)); [reflexivity | lia].
Qed.

(** [parseInt] reads the numeral of [n] as the double nearest to [n]. *)
Lemma parseInt10_decimal (n : Z) : JS.parseInt10 (JS.decimal n) = Some (JS.toDouble n).
Proof.
  assert (Hdig : forall neg p, JS.parseIntDigits neg
            (NilEmpty.string_of_uint (Pos.to_uint p))
            = Some (JS.toDouble (if neg then Z.neg p else Z.pos p))).
  { intros neg p. unfold JS.parseIntDigits. rewrite leadingDigits_string_of_uint.
    pose proof (DecimalPos.Unsigned.to_uint_nonnil p) as Hnn.
    pose proof (DecimalPos.Unsigned.of_to p) as Hof.
    unfold N.of_uint. destruct (Pos.to_uint p); try congruence; rewrite Hof;
      destruct neg; reflexivity. }
  destruct n as [|p|p]; [reflexivity | |].
  - unfold JS.decimal; simpl. specialize (Hdig false p).
    pose proof (DecimalPos.Unsigned.to_uint_nonnil p) as Hnn.
    destruct (Pos.to_uint p); try congruence; exact Hdig.
  - unfold JS.decimal; simpl. specialize (Hdig true p).
    pose proof (DecimalPos.Unsigned.to_uint_nonnil p) as Hnn.
    unfold JS.parseInt10. simpl.
    destruct (Pos.to_uint p); try congruence; exact Hdig.
Qed.

(** A numeral written by [String(n)] for [n] below 2^53 is read back by
    [parseInt]. *)
Lemma parseInt10_numberToString (n : Z) :
  Z.abs n < 2 ^ 53 -> JS.parseInt10 (JS.numberToString n) = Some n.
Proof.
  intros H. rewrite numberToString_safe, parseInt10_decimal, toDouble_safe by exact H.
  reflexivity.
Qed.

(** Numbers at and beyond the bounds of the exact integers. *)
Example toDouble_examples :
  JS.toDouble (2 ^ 53 + 1) = 2 ^ 53
  /\ JS.toDouble (2 ^ 53 + 3) = 2 ^ 53 + 4
  /\ JS.toDouble (2 ^ 1024 - 2 ^ 970 - 1) = 2 ^ 1024 - 2 ^ 971
  /\ JS.toDouble (2 ^ 1024 - 2 ^ 970) = JS.infinity
  /\ JS.toDouble (- 10 ^ 400) = - JS.infinity.
Proof. repeat split. Qed.

Example numberToString_examples :
  JS.numberToString 123 = "123"
  /\ JS.numberToString (-45) = "-45"
  /\ JS.numberToString (2 ^ 53 + 1) = "9007199254740992"
  /\ JS.numberToString 12345678901234567890 = "12345678901234567000"
  /\ JS.numberToString 999999999999999999999 = "1e+21"
  /\ JS.numberToString (10 ^ 21) = "1e+21"
  /\ JS.numberToString (- 2 ^ 70) = "-1.1805916207174113e+21"
  /\ JS.numberToString (10 ^ 309) = "Infinity".
Proof. repeat split. Qed.

End Strings.

(** ** Objects built by the handlers *)

Section Objects.

Variables t c a : option JS.value.

Lemma object_title : threeFields t c a !! "title" = t.
Proof. unfold threeFields, setDefined; destruct t, c, a; by simplify_map_eq. Qed.

Lemma object_content : threeFields t c a !! "content" = c.
Proof. unfold threeFields, setDefined; destruct t, c, a; by simplify_map_eq. Qed.

Lemma object_author : threeFields t c a !! "author" = a.
Proof. unfold threeFields, setDefined; destruct t, c, a; by simplify_map_eq. Qed.

Lemma object_size :
  size (threeFields t c a)
    = (boolToNat (bool_decide (is_Some t)) + boolToNat (bool_decide (is_Some c))
       + boolToNat (bool_decide (is_Some a)))%nat.
Proof.
  unfold threeFields, setDefined; destruct t, c, a; simpl;
    repeat (rewrite map_size_insert_None; [|by simplify_map_eq]);
    rewrite ?map_size_empty; reflexivity.
Qed.

End Objects.

(** ** The validators of the schema *)

(** Case analysis on every comparison of naturals in the goal. *)
Ltac nat_cases :=
  repeat match goal with
  | |- context [(?a <=? ?b)%nat] => destruct (Nat.leb_spec a b)
  | |- context [(?a <? ?b)%nat] => destruct (Nat.ltb_spec a b)
  | |- context [(?a =? ?b)%nat] => destruct (Nat.eqb_spec a b)
  end; simpl; try reflexivity; try lia.

Section Validators.
Import Mongoose.

Lemma length_zero_eqb (s : string) :
  String.eqb s "" = (String.length s =? 0)%nat.
Proof. destruct s; reflexivity. Qed.

Lemma validate_title (s : string) :
  snd <$> validatePath Schema.title (Some s) = titleError (String.length s).
Proof.
  unfold validatePath, doValidate, titleError.
  cbn -[Nat.leb Nat.ltb Nat.eqb String.length].
  rewrite length_zero_eqb. nat_cases.
Qed.

Lemma validate_content (s : string) :
  snd <$> validatePath Schema.content (Some s) = contentError (String.length s).
Proof.
  unfold validatePath, doValidate, contentError.
  cbn -[Nat.leb Nat.ltb Nat.eqb String.length].
  rewrite length_zero_eqb. nat_cases.
Qed.

Lemma validate_author (s : string) :
  snd <$> validatePath Schema.author (Some s) = authorError (String.length s).
Proof.
  unfold validatePath, doValidate, authorError.
  cbn -[Nat.leb Nat.ltb Nat.eqb String.length].
  rewrite length_zero_eqb. nat_cases.
Qed.

(** A [null] fails the [required] validator of its path. *)
Lemma validate_null (sch : Schema.SchemaString) (m : string) :
  Schema.required sch = Some m ->
  validatePath sch None = [(Schema.path sch, m)].
Proof.
  intros H. unfold validatePath, doValidate, validators. rewrite H. reflexivity.
Qed.

End Validators.

(** ** Create *)

Section Create.
Import Mongoose.

Variables (now : Z) (st : Store).

Lemma truthy_falsy (v : option JS.value) : JS.truthy v = false <-> falsy v.
Proof.
  split.
  - destruct v as [[|[]|n|s]|]; simpl; try discriminate; intros H; try constructor.
    + apply negb_false_iff, Z.eqb_eq in H. subst. constructor.
    + apply negb_false_iff, String.eqb_eq in H. subst. constructor.
  - destruct 1; reflexivity.
Qed.

(** [Post.create] on a document of three strings. *)
Lemma create_strings (doc : gmap string JS.value) (t c a : string) :
  doc !! "title" = Some (JS.VStr t) ->
  doc !! "content" = Some (JS.VStr c) ->
  doc !! "author" = Some (JS.VStr a) ->
  Model.create now doc st =
    match validatePath Schema.title (Some (JS.trim t))
          ++ validatePath Schema.content (Some (JS.trim c))
          ++ validatePath Schema.author (Some (JS.trim a)) with
    | [] =>
        let p := {| _id := nextId st; title := JS.trim t; content := JS.trim c;
                    author := JS.trim a; createdAt := now; updatedAt := now |} in
        (Resolved p, {| posts := posts st ++ [p]; nextId := N.succ (nextId st) |})
    | errors => (ValidationError errors, st)
    end.
Proof.
  intros Ht Hc Ha. unfold Model.create, castPath, applySetters.
  cbn [Schema.path Schema.title Schema.content Schema.author Schema.trim].
  rewrite Ht, Hc, Ha. cbn [castString fmap option_fmap option_map].
  reflexivity.
Qed.

Lemma errors_strings (t c a : string) :
  snd <$> (validatePath Schema.title (Some (JS.trim t))
           ++ validatePath Schema.content (Some (JS.trim c))
           ++ validatePath Schema.author (Some (JS.trim a)))
  = titleError (trimmedLength t) ++ contentError (trimmedLength c)
    ++ authorError (trimmedLength a).
Proof.
  rewrite !fmap_app, validate_title, validate_content, validate_author. reflexivity.
Qed.

Lemma storeOk_create (p : Post) :
  storeOk st -> _id p = nextId st ->
  storeOk {| posts := posts st ++ [p]; nextId := N.succ (nextId st) |}.
Proof.
  intros [Hnd Hlt] Hid. split; simpl.
  - rewrite fmap_app. apply NoDup_app. split; [exact Hnd|]. split.
    + intros x Hx Hx'. apply list_elem_of_singleton in Hx'. subst x.
      apply list_elem_of_fmap in Hx as [q [Hq Hin]].
      rewrite Forall_forall in Hlt. specialize (Hlt q Hin). lia.
    + apply NoDup_singleton.
  - apply Forall_app. split.
    + eapply Forall_impl; [exact Hlt|]. intros q Hq. simpl in Hq. lia.
    + constructor; [lia | constructor].
Qed.

End Create.

(** C1.  A Create whose title, content and author are strings within the
    length bounds of the data model after trimming (title 3 to 100,
    content at least 10, author 2 to 50 characters) is answered with 201
    and the persisted post: its fields are the trimmed inputs and its
    identifier is fresh, distinct from that of every other post in the
    collection. *)
Theorem createPost_valid (now : Z) (body : gmap string JS.value) (st : Store)
    (t c a : string) :
  body !! "title" = Some (JS.VStr t) ->
  body !! "content" = Some (JS.VStr c) ->
  body !! "author" = Some (JS.VStr a) ->
  (3 <= trimmedLength t <= 100)%nat ->
  (10 <= trimmedLength c)%nat ->
  (2 <= trimmedLength a <= 50)%nat ->
  storeOk st ->
  exists p : Post,
    response (createPost now body st)
      = {| status := 201; json := PostData (Some "Post created successfully") p |}
    /\ title p = JS.trim t /\ content p = JS.trim c /\ author p = JS.trim a
    /\ posts (store (createPost now body st)) = posts st ++ [p]
    /\ (forall q, q ∈ posts st -> _id q <> _id p)
    /\ storeOk (store (createPost now body st)).
Proof.
  intros Ht Hc Ha Bt Bc Ba Hok. unfold trimmedLength in *.
  unfold createPost. rewrite Ht, Hc, Ha. simpl JS.truthy.
  rewrite !trim_nonempty by lia. simpl negb. simpl orb. cbv iota.
  change (setDefined "author" ?x (setDefined "content" ?y (setDefined "title" ?z ∅)))
    with (threeFields z y x).
  erewrite create_strings; [| apply object_title | apply object_content | apply object_author].
  pose proof (errors_strings t c a) as He. unfold trimmedLength in He.
  assert (Hnil : titleError (String.length (JS.trim t))
                 ++ contentError (String.length (JS.trim c))
                 ++ authorError (String.length (JS.trim a)) = []).
  { unfold titleError, contentError, authorError. nat_cases. }
  rewrite Hnil in He. apply fmap_nil_inv in He. rewrite He.
  eexists. simpl. repeat split; try reflexivity.
  - intros q Hq Heq. destruct Hok as [_ Hlt].
    rewrite Forall_forall in Hlt. specialize (Hlt q Hq). simpl in Heq. lia.
  - apply storeOk_create; [exact Hok | reflexivity].
  - apply storeOk_create; [exact Hok | reflexivity].
Qed.

Lemma createPost_valid_witness :
  exists p : Post,
    response (createPost 1000 Sample.helloBody emptyStore)
      = {| status := 201; json := PostData (Some "Post created successfully") p |}
    /\ title p = JS.trim "  Hello " /\ content p = JS.trim "0123456789"
    /\ author p = JS.trim "Al"
    /\ posts (store (createPost 1000 Sample.helloBody emptyStore)) = posts emptyStore ++ [p]
    /\ (forall q, q ∈ posts emptyStore -> _id q <> _id p)
    /\ storeOk (store (createPost 1000 Sample.helloBody emptyStore)).
Proof.
  apply (createPost_valid 1000 Sample.helloBody emptyStore "  Hello " "0123456789" "Al");
    try reflexivity; try (vm_compute; lia).
  split; constructor.
Defined.

(** C2 (as amended).  A Create in which title, content or author is
    absent or falsy (null, false, 0 or the empty string) is answered
    with 400 and the message that lists the required fields, and makes
    no call on the store. *)
Theorem createPost_missing_field (now : Z) (body : gmap string JS.value) (st : Store) :
  falsy (body !! "title") \/ falsy (body !! "content") \/ falsy (body !! "author") ->
  createPost now body st
    = respond 400
        (Failure "Please provide all required fields: title, content, and author") st [].
Proof.
  intros H. unfold createPost.
  destruct H as [H | [H | H]]; apply truthy_falsy in H; rewrite H; simpl;
    rewrite ?orb_true_r; reflexivity.
Qed.

Lemma createPost_missing_field_witness :
  createPost 1000 Sample.noTitleBody emptyStore
    = respond 400
        (Failure "Please provide all required fields: title, content, and author")
        emptyStore [].
Proof.
  apply (createPost_missing_field 1000 Sample.noTitleBody emptyStore).
  left. change (Sample.noTitleBody !! "title") with (@None JS.value). constructor.
Defined.

(** C2 as stated fails: a title that is the number 123 is not a string,
    yet the check lets it through, [Post.create] is called, the number is
    cast to the string "123" and the post is stored. *)
Lemma createPost_number_title :
  Sample.numberTitleBody !! "title" = Some (JS.VNum 123)
  /\ response (createPost 1000 Sample.numberTitleBody emptyStore)
     = {| status := 201;
          json := PostData (Some "Post created successfully")
                    {| _id := 0%N; title := "123"; content := "0123456789";
                       author := "Al"; createdAt := 1000; updatedAt := 1000 |} |}
  /\ calls (createPost 1000 Sample.numberTitleBody emptyStore)
     = [CallCreate Sample.numberTitleBody].
Proof. repeat split. Qed.

(** ** Update: validation *)

Section UpdateValidation.
Import Mongoose.

Lemma validateUpdate_path (sch : Schema.SchemaString) (upd : gmap string JS.value) :
  Model.validateUpdate sch (Model.updatePath sch upd) = pathErrors sch (upd !! Schema.path sch).
Proof.
  unfold Model.validateUpdate, Model.updatePath, pathErrors, castPath.
  destruct (upd !! Schema.path sch); reflexivity.
Qed.

Lemma findByIdAndUpdate_errors (now : Z) (id : ObjectId) (upd : gmap string JS.value)
    (st : Store) :
  pathErrors Schema.author (upd !! "author") ++ pathErrors Schema.content (upd !! "content")
    ++ pathErrors Schema.title (upd !! "title") <> [] ->
  Model.findByIdAndUpdate now id upd st
    = (ValidationError
         (pathErrors Schema.author (upd !! "author")
          ++ pathErrors Schema.content (upd !! "content")
          ++ pathErrors Schema.title (upd !! "title")), st).
Proof.
  intros H. unfold Model.findByIdAndUpdate. rewrite !validateUpdate_path.
  change (Schema.path Schema.title) with "title".
  change (Schema.path Schema.content) with "content".
  change (Schema.path Schema.author) with "author".
  destruct (pathErrors Schema.author (upd !! "author")
            ++ pathErrors Schema.content (upd !! "content")
            ++ pathErrors Schema.title (upd !! "title")); [congruence | reflexivity].
Qed.

Lemma findByIdAndUpdate_valid (now : Z) (id : ObjectId) (upd : gmap string JS.value)
    (st : Store) :
  pathErrors Schema.author (upd !! "author") ++ pathErrors Schema.content (upd !! "content")
    ++ pathErrors Schema.title (upd !! "title") = [] ->
  Model.findByIdAndUpdate now id upd st
    = match Model.findOne id (posts st) with
      | None => (Resolved None, st)
      | Some p =>
          let p' := {| _id := _id p;
                       title := Model.setField (Model.updatePath Schema.title upd) (title p);
                       content := Model.setField (Model.updatePath Schema.content upd) (content p);
                       author := Model.setField (Model.updatePath Schema.author upd) (author p);
                       createdAt := createdAt p;
                       updatedAt := now |} in
          (Resolved (Some p'),
           {| posts := Model.replaceOne id p' (posts st); nextId := nextId st |})
      end.
Proof.
  intros H. unfold Model.findByIdAndUpdate. rewrite !validateUpdate_path.
  change (Schema.path Schema.title) with "title".
  change (Schema.path Schema.content) with "content".
  change (Schema.path Schema.author) with "author".
  rewrite H. reflexivity.
Qed.

(** The messages of an update whose three fields are strings: those
    of Create, the fields in the opposite order. *)
Lemma update_errors_strings (t c a : string) :
  snd <$> (validatePath Schema.author (Some (JS.trim a))
           ++ validatePath Schema.content (Some (JS.trim c))
           ++ validatePath Schema.title (Some (JS.trim t)))
  = authorError (trimmedLength a) ++ contentError (trimmedLength c)
    ++ titleError (trimmedLength t).
Proof.
  rewrite !fmap_app, validate_title, validate_content, validate_author. reflexivity.
Qed.

End UpdateValidation.

(** C3.  When title, content and author are all given and at least one
    of them is out of its bounds after trimming, Create (on non-empty
    strings) and Update (on a well-formed identifier) answer 400 with a
    ValidationError payload that holds one message for each field that is
    out of bounds, the message that names the violation; nothing is
    stored.  Create lists the messages in the order title, content,
    author, and Update in the order author, content, title. *)
Theorem validation_failure (castObjectId : string -> option ObjectId)
    (now : Z) (body : gmap string JS.value) (st : Store) (t c a : string) :
  body !! "title" = Some (JS.VStr t) ->
  body !! "content" = Some (JS.VStr c) ->
  body !! "author" = Some (JS.VStr a) ->
  outOfBounds 3 (Some 100%nat) (trimmedLength t)
    || outOfBounds 10 None (trimmedLength c)
    || outOfBounds 2 (Some 50%nat) (trimmedLength a) = true ->
  let violated := (boolToNat (outOfBounds 3 (Some 100%nat) (trimmedLength t))
                   + boolToNat (outOfBounds 10 None (trimmedLength c))
                   + boolToNat (outOfBounds 2 (Some 50%nat) (trimmedLength a)))%nat in
  let createErrors := titleError (trimmedLength t) ++ contentError (trimmedLength c)
                      ++ authorError (trimmedLength a) in
  let updateErrors := authorError (trimmedLength a) ++ contentError (trimmedLength c)
                      ++ titleError (trimmedLength t) in
  length createErrors = violated
  /\ length updateErrors = violated
  /\ (t <> "" -> c <> "" -> a <> "" ->
      response (createPost now body st) = validationFailed createErrors
      /\ store (createPost now body st) = st)
  /\ (forall id, is_Some (castObjectId id) ->
      response (updatePost castObjectId now id body st) = validationFailed updateErrors
      /\ store (updatePost castObjectId now id body st) = st).
Proof.
  intros Ht Hc Ha Hout violated createErrors updateErrors.
  assert (Hlen : length createErrors = violated).
  { subst createErrors violated. rewrite !length_app.
    unfold titleError, contentError, authorError, outOfBounds. nat_cases. }
  assert (Hlen' : length updateErrors = violated).
  { subst updateErrors violated. rewrite !length_app.
    unfold titleError, contentError, authorError, outOfBounds. nat_cases. }
  assert (Hpos : (0 < violated)%nat).
  { subst violated.
    destruct (outOfBounds 3 _ _), (outOfBounds 10 _ _), (outOfBounds 2 _ _);
      simpl in *; first [lia | discriminate Hout]. }
  assert (Hne : createErrors <> []).
  { intros E. rewrite E in Hlen. simpl in Hlen. lia. }
  assert (Hne' : updateErrors <> []).
  { intros E. rewrite E in Hlen'. simpl in Hlen'. lia. }
  pose proof (errors_strings t c a) as He. fold createErrors in He.
  pose proof (update_errors_strings t c a) as He'. fold updateErrors in He'.
  split; [exact Hlen|]. split; [exact Hlen'|]. split.
  - intros Nt Nc Na. unfold createPost. rewrite Ht, Hc, Ha. simpl JS.truthy.
    apply String.eqb_neq in Nt, Nc, Na. rewrite Nt, Nc, Na. simpl negb. simpl orb. cbv iota.
    change (setDefined "author" ?x (setDefined "content" ?y (setDefined "title" ?z ∅)))
      with (threeFields z y x).
    erewrite create_strings; [| apply object_title | apply object_content | apply object_author].
    destruct (Mongoose.validatePath Schema.title (Some (JS.trim t)) ++ _) eqn:E.
    + simpl in He. congruence.
    + unfold respond, validationFailed. cbn [response store]. rewrite He.
      split; reflexivity.
  - intros id [oid Hid]. unfold updatePost. rewrite Hid, Ht, Hc, Ha.
    change (setDefined "author" ?x (setDefined "content" ?y (setDefined "title" ?z ∅)))
      with (threeFields z y x).
    rewrite object_size. simpl Nat.eqb. cbv iota.
    assert (Hpe : pathErrors Schema.author (Some (JS.VStr a))
                  ++ pathErrors Schema.content (Some (JS.VStr c))
                  ++ pathErrors Schema.title (Some (JS.VStr t))
                  = Mongoose.validatePath Schema.author (Some (JS.trim a))
                    ++ Mongoose.validatePath Schema.content (Some (JS.trim c))
                    ++ Mongoose.validatePath Schema.title (Some (JS.trim t))) by reflexivity.
    rewrite findByIdAndUpdate_errors; rewrite object_title, object_content, object_author, Hpe.
    + unfold respond, validationFailed. cbn [response store]. rewrite He'.
      split; reflexivity.
    + intros E. rewrite E in He'. simpl in He'. congruence.
Qed.

Lemma validation_failure_witness :
  let createErrors := ["Title is required"; "Content must be at least 10 characters long"] in
  let updateErrors := ["Content must be at least 10 characters long"; "Title is required"] in
  length createErrors = 2%nat
  /\ length updateErrors = 2%nat
  /\ (response (createPost 1000 Sample.shortBody emptyStore) = validationFailed createErrors
      /\ store (createPost 1000 Sample.shortBody emptyStore) = emptyStore)
  /\ (response (updatePost hexObjectId 1000 "000000000000000000000000" Sample.shortBody
                  emptyStore) = validationFailed updateErrors
      /\ store (updatePost hexObjectId 1000 "000000000000000000000000" Sample.shortBody
                  emptyStore) = emptyStore).
Proof.
  pose proof (validation_failure hexObjectId 1000 Sample.shortBody emptyStore
                "   " "012" "Al" eq_refl eq_refl eq_refl eq_refl) as [H1 [H1' [H2 H3]]].
  split; [exact H1|]. split; [exact H1'|]. split.
  - apply H2; discriminate.
  - apply (H3 "000000000000000000000000"). eexists; reflexivity.
Defined.

(** ** List: the pagination parameters *)

Section Pagination.

Lemma leadingDigits_nondigit (c : ascii) (s : string) :
  isDigit c = false -> JS.leadingDigits (String c s) = Nil.
Proof.
  destruct c as [[] [] [] [] [] [] [] []]; simpl; intros H;
    first [reflexivity | discriminate H].
Qed.



Lemma queryLimit_nonzero (query : gmap string string) : queryLimit query <> 0.
Proof.
  unfold queryLimit, JS.orDefault. destruct (JS.parseInt _) as [k|]; [|lia].
  destruct (Z.eqb_spec k 0); lia.
Qed.

Lemma queryPage_nonzero (query : gmap string string) : queryPage query <> 0.
Proof.
  unfold queryPage, JS.orDefault. destruct (JS.parseInt _) as [k|]; [|lia].
  destruct (Z.eqb_spec k 0); lia.
Qed.

Lemma paginate_resolved (skip limit : Z) (l : list Post) :
  0 <= skip ->
  Model.paginate skip limit l
    = Mongoose.Resolved (if limit =? 0 then drop (Z.to_nat skip) l
                         else take (Z.to_nat (Z.abs limit)) (drop (Z.to_nat skip) l)).
Proof.
  intros H. unfold Model.paginate. destruct (Z.ltb_spec skip 0); [lia | reflexivity].
Qed.

(** The answer of List when the filter is in the modelled fragment and
    the skip is not negative. *)
Lemma getAllPosts_page (query : gmap string string) (st : Store) (f : Post -> bool) :
  Model.matches (buildQuery query) = Some f ->
  0 <= (queryPage query - 1) * queryLimit query ->
  queryLimit query <> 0 ->
  let all := Model.sortDesc (List.filter f (posts st)) in
  let data := take (Z.to_nat (Z.abs (queryLimit query)))
                (drop (Z.to_nat ((queryPage query - 1) * queryLimit query)) all) in
  getAllPosts query st
    = Some (respond 200
              (PageData (Z.of_nat (length data)) (Z.of_nat (length (List.filter f (posts st))))
                 (JS.jsonNumber (queryPage query))
                 (JS.ceilDiv (Z.of_nat (length (List.filter f (posts st)))) (queryLimit query))
                 data)
              st
              [CallFind (buildQuery query) ((queryPage query - 1) * queryLimit query)
                 (queryLimit query);
               CallCountDocuments (buildQuery query)]).
Proof.
  intros Hf Hskip Hlim all data. unfold getAllPosts, Model.find, Model.countDocuments.
  rewrite Hf. simpl. rewrite paginate_resolved by exact Hskip.
  destruct (Z.eqb_spec (queryLimit query) 0); [contradiction | reflexivity].
Qed.

Lemma roundSignificand_big (n : Z) : 2 ^ 53 <= n -> 2 ^ 53 <= JS.roundSignificand n.
Proof.
  intros Hbig. unfold JS.roundSignificand.
  destruct (Z.ltb_spec n (2 ^ 53)); [lia|].
  assert (Hn : 0 < n) by lia.
  assert (He : 53 <= Z.log2 n) by (apply Z.log2_le_pow2; lia).
  set (e := Z.log2 n - 52).
  assert (Hq : 2 ^ 52 <= Z.shiftr n e).
  { rewrite Z.shiftr_div_pow2 by (subst e; lia).
    apply Z.div_le_lower_bound; [apply Z.pow_pos_nonneg; subst e; lia|].
    rewrite <- Z.pow_add_r by (subst e; lia).
    replace (e + 52) with (Z.log2 n) by (subst e; lia).
    apply (proj1 (Z.log2_spec n Hn)). }
  rewrite Z.shiftl_mul_pow2 by (subst e; lia).
  assert (H2 : 2 <= 2 ^ e).
  { change 2 with (2 ^ 1) at 1. apply Z.pow_le_mono_r; subst e; lia. }
  destruct (_ || _); nia.
Qed.

Lemma toDouble_big (x : Z) : 2 ^ 53 <= Z.abs x -> 2 ^ 53 <= Z.abs (JS.toDouble x).
Proof.
  intros H. unfold JS.toDouble.
  pose proof (roundSignificand_big (Z.abs x) H) as Hr.
  assert (Hinf : 2 ^ 53 <= JS.infinity).
  { unfold JS.infinity. apply Z.pow_le_mono_r; lia. }
  rewrite Z.abs_mul. destruct x; simpl in *; lia.
Qed.

(** The skip that the source computes on doubles, rounded after the
    subtraction and after the product, skips the same posts of a
    collection of fewer than 2^53 as the exact product; where the source
    gets [NaN], for 0 times an infinity, both are 0. *)
Lemma paginate_rounded_skip (page limit : Z) (l : list Post) :
  Z.of_nat (length l) < 2 ^ 53 ->
  Model.paginate (JS.toDouble (JS.toDouble (page - 1) * limit)) limit l
    = Model.paginate ((page - 1) * limit) limit l.
Proof.
  intros Hlen.
  set (d := JS.toDouble (page - 1)).
  set (r := JS.toDouble (d * limit)).
  set (e := (page - 1) * limit).
  assert (Hsd : Z.sgn d = Z.sgn (page - 1)) by apply toDouble_sgn.
  assert (Hsr : Z.sgn r = Z.sgn e).
  { subst r e. rewrite toDouble_sgn, !Z.sgn_mul, Hsd. reflexivity. }
  destruct (Z_lt_le_dec (Z.abs (page - 1)) (2 ^ 53)) as [Hp|Hp].
  - assert (Hd : d = page - 1) by (apply toDouble_safe; exact Hp).
    destruct (Z_lt_le_dec (Z.abs e) (2 ^ 53)) as [He|He].
    + subst r. rewrite Hd. fold e. rewrite toDouble_safe by exact He. reflexivity.
    + assert (Hr : 2 ^ 53 <= Z.abs r) by (subst r; rewrite Hd; apply toDouble_big, He).
      unfold Model.paginate.
      destruct (Z.ltb_spec r 0), (Z.ltb_spec e 0); try lia; try reflexivity.
      rewrite !drop_ge by lia. reflexivity.
  - assert (Hd : 2 ^ 53 <= Z.abs d) by (apply toDouble_big, Hp).
    unfold Model.paginate.
    destruct (Z.ltb_spec r 0), (Z.ltb_spec e 0); try lia; try reflexivity.
    destruct (Z.eq_dec limit 0) as [->|Hl].
    + subst r e. rewrite !Z.mul_0_r. reflexivity.
    + assert (He : 2 ^ 53 <= Z.abs e) by (subst e; rewrite Z.abs_mul; nia).
      assert (Hr : 2 ^ 53 <= Z.abs r).
      { subst r. apply toDouble_big. rewrite Z.abs_mul. nia. }
      rewrite !drop_ge by lia. reflexivity.
Qed.

End Pagination.




(** ** List: sorting and paging *)

Section Sorting.

Lemma insertDesc_perm (p : Post) (l : list Post) :
  Permutation (Model.insertDesc p l) (p :: l).
Proof.
  induction l as [|q l IH]; simpl; [reflexivity|].
  destruct (createdAt q <=? createdAt p); [reflexivity|].
  rewrite IH. apply perm_swap.
Qed.

Lemma sortDesc_perm (l : list Post) : Permutation (Model.sortDesc l) l.
Proof.
  induction l as [|p l IH]; simpl; [reflexivity|].
  rewrite insertDesc_perm. apply perm_skip, IH.
Qed.

Lemma insertDesc_descending (p : Post) (l : list Post) :
  descending l -> descending (Model.insertDesc p l).
Proof.
  unfold descending. induction 1 as [|q l Hs IH Hq]; simpl.
  - repeat constructor.
  - destruct (Z.leb_spec (createdAt q) (createdAt p)) as [Hle|Hlt].
    + constructor; [constructor; assumption|].
      constructor; [exact Hle|].
      eapply Forall_impl; [exact Hq|]. intros r Hr; simpl in Hr. lia.
    + constructor; [exact IH|].
      eapply Permutation_Forall; [symmetry; apply insertDesc_perm|].
      constructor; [lia | exact Hq].
Qed.

Lemma sortDesc_descending (l : list Post) : descending (Model.sortDesc l).
Proof.
  induction l as [|p l IH]; simpl; [constructor|].
  apply insertDesc_descending, IH.
Qed.

End Sorting.

Section Chunks.

Context {A : Type}.


End Chunks.


(** ** The rounded quotient *)

Section Quotient.

Variables (a b s : Z).
Hypothesis Hb : 0 < b.
Hypothesis Hs : 0 <= s.
Hypothesis Hbs : b < 2 ^ (s + 1).




End Quotient.




(** No page holds the posts when the limit is infinite. *)
Lemma ceilDiv_infinity (n : Z) : JS.ceilDiv n JS.infinity = 0.
Proof. reflexivity. Qed.

(** The last quotient, of a count beyond 2^53, is 17 and a little more,
    and is rounded to 17. *)
Example ceilDiv_examples :
  JS.ceilDiv 3 10 = 1 /\ JS.ceilDiv 25 10 = 3 /\ JS.ceilDiv 30 10 = 3
  /\ JS.ceilDiv 3 (-10) = 0 /\ JS.ceilDiv 25 (-10) = -2
  /\ JS.ceilDiv 3 (2 ^ 1023) = 1 /\ JS.ceilDiv 3 JS.infinity = 0
  /\ JS.ceilDiv 9616896351847278 565699785402781 = 17.
Proof. repeat split. Qed.


Section Paging.

Variables (query : gmap string string) (st : Store).





End Paging.

(** A page far beyond the last one is empty. *)
Lemma getAllPosts_beyond (query : gmap string string) (st : Store) (f : Post -> bool) :
  Model.matches (buildQuery query) = Some f ->
  Z.of_nat (length (List.filter f (posts st))) <= (queryPage query - 1) * queryLimit query ->
  exists cs,
    getAllPosts query st
      = Some (respond 200
                (PageData 0 (Z.of_nat (length (List.filter f (posts st))))
                   (JS.jsonNumber (queryPage query))
                   (JS.ceilDiv (Z.of_nat (length (List.filter f (posts st))))
                      (queryLimit query)) [])
                st cs).
Proof.
  intros Hf Hskip. eexists.
  rewrite (getAllPosts_page query st f Hf); [| lia | apply queryLimit_nonzero].
  rewrite drop_ge, take_nil; [reflexivity|].
  assert (length (Model.sortDesc (List.filter f (posts st)))
          = length (List.filter f (posts st))) as ->
    by apply Permutation_length, sortDesc_perm.
  lia.
Qed.



(** The scenario of the specification: three posts created in the order
    A, B, C, read two at a time. *)
Example scenario_three_posts :
  pageData (getAllPosts (withPage Sample.limitTwoQuery 1) Sample.threeStore)
    = [Sample.postC; Sample.postB]
  /\ getAllPosts (withPage Sample.limitTwoQuery 2) Sample.threeStore
     = Some (respond 200 (PageData 1 3 (Some 2) 2 [Sample.postA]) Sample.threeStore
               [CallFind Sample.noFilter 2 2; CallCountDocuments Sample.noFilter]).
Proof. split; reflexivity. Qed.


(** ** List: the filter *)

Section Filtering.

Lemma compile_plain (s : string) :
  plain s = true -> Regex.compile s = Some (Regex.Lit <$> list_ascii_of_string s).
Proof.
  induction s as [|c s IH]; simpl; [reflexivity|].
  intros H. apply andb_true_iff in H as [Hc Hs].
  destruct (Ascii.eqb_spec c "."%char) as [->|_]; [discriminate Hc|].
  rewrite Hc, (IH Hs). reflexivity.
Qed.

(** A pattern of ordinary characters matches at the start of [t] exactly
    when [t] begins with it, letter case apart. *)
Lemma matchHere_prefix (s t : string) :
  Regex.matchHere (Regex.Lit <$> list_ascii_of_string s) t = true
  <-> exists v, JS.toLowerCase t = String.append (JS.toLowerCase s) v.
Proof.
  revert t. induction s as [|x s IH]; intros t; simpl.
  - split; [intros _; eexists; reflexivity | reflexivity].
  - destruct t as [|c t]; simpl.
    + split; [discriminate | intros [v Hv]; discriminate Hv].
    + rewrite andb_true_iff, IH. split.
      * intros [Hc [v Hv]]. apply Ascii.eqb_eq in Hc. exists v.
        simpl. rewrite Hc, Hv. reflexivity.
      * intros [v Hv]. simpl in Hv. injection Hv as Hc Ht. split; [|by exists v].
        apply Ascii.eqb_eq. congruence.
Qed.

(** The search for such a pattern is the search for a substring. *)
Lemma test_contains (s t : string) :
  Regex.test (Regex.Lit <$> list_ascii_of_string s) t = true
  <-> containsIgnoringCase s t.
Proof.
  unfold containsIgnoringCase. induction t as [|c t IH]; simpl.
  - rewrite orb_false_r. split.
    + intros H. apply (matchHere_prefix s "") in H as [v Hv]. exists "", v. exact Hv.
    + intros [u [v H]]. apply (matchHere_prefix s ""). destruct u; [|discriminate H].
      exists v. exact H.
  - rewrite orb_true_iff. split.
    + intros [H | H].
      * apply (matchHere_prefix s (String c t)) in H as [v Hv]. exists "", v. exact Hv.
      * apply IH in H as [u [v H]]. exists (String (JS.toLower c) u), v.
        simpl. by rewrite H.
    + intros [u [v H]]. destruct u as [|c' u].
      * left. apply (matchHere_prefix s (String c t)). exists v. exact H.
      * right. apply IH. injection H as _ H. exists u, v. exact H.
Qed.

Lemma contains_empty (t : string) : containsIgnoringCase "" t.
Proof. exists "", (JS.toLowerCase t). reflexivity. Qed.

(** The [$regex] condition that a query parameter gives, when the
    parameter is plain. *)
Lemma regexField_plain (v : option string) :
  (forall s, v = Some s -> plain s = true) ->
  exists g, Model.regexField (truthyParam v) = Some g
    /\ forall t, g t = true <-> (forall s, v = Some s -> containsIgnoringCase s t).
Proof.
  intros Hv. destruct v as [s|]; simpl.
  - destruct (String.eqb_spec s "") as [->|Hne]; simpl.
    + eexists; split; [reflexivity|]. intros t. split; [|reflexivity].
      intros _ s [= <-]. apply contains_empty.
    + rewrite compile_plain by (apply Hv; reflexivity). simpl.
      eexists; split; [reflexivity|]. intros t. rewrite test_contains. split.
      * intros H s' [= <-]. exact H.
      * intros H. apply H. reflexivity.
  - eexists; split; [reflexivity|]. intros t. split; [|reflexivity].
    intros _ s Hs. discriminate Hs.
Qed.

End Filtering.

(** C6 (as amended).  When the [author] and [search] parameters of a
    List query are made of ASCII characters none of which is special in
    a regular expression, the posts that List pages through are exactly
    those whose author contains [author] and whose title or content
    contains [search], letter case apart; both conditions apply when
    both parameters are given.  For a page of at least 1 and a positive
    limit, both finite, the answer counts these posts and holds the
    page of them. *)
Theorem list_filter (query : gmap string string) (st : Store) :
  (forall a, query !! "author" = Some a -> plain a = true) ->
  (forall s, query !! "search" = Some s -> plain s = true) ->
  1 <= queryPage query < JS.infinity ->
  0 < queryLimit query < JS.infinity ->
  exists f : Post -> bool,
    (forall p, f p = true <-> selected query p)
    /\ let found := List.filter f (posts st) in
       let data := take (Z.to_nat (queryLimit query))
                     (drop (Z.to_nat ((queryPage query - 1) * queryLimit query))
                        (Model.sortDesc found)) in
       getAllPosts query st
         = Some (respond 200
                   (PageData (Z.of_nat (length data)) (Z.of_nat (length found))
                      (Some (queryPage query))
                      (JS.ceilDiv (Z.of_nat (length found)) (queryLimit query)) data)
                   st
                   [CallFind (buildQuery query)
                      ((queryPage query - 1) * queryLimit query) (queryLimit query);
                    CallCountDocuments (buildQuery query)]).
Proof.
  intros Ha Hs Hpage Hlimit.
  destruct (regexField_plain (query !! "author") Ha) as [ga [Ega Hga]].
  destruct (regexField_plain (query !! "search") Hs) as [gs [Egs Hgs]].
  exists (fun p => ga (author p) && (gs (title p) || gs (content p))). split.
  - intros p. unfold selected.
    rewrite andb_true_iff, orb_true_iff, Hga, !Hgs. split.
    + intros [H1 H2]. split; [exact H1|]. intros s Es.
      destruct H2 as [H2|H2]; [left | right]; apply H2, Es.
    + intros [H1 H2]. split; [exact H1|].
      destruct (query !! "search") as [s|] eqn:Es.
      * destruct (H2 s eq_refl) as [H|H]; [left | right]; by intros s' [= <-].
      * left. intros s' Hs'. discriminate Hs'.
  - cbv zeta. erewrite getAllPosts_page; [| | nia | lia].
    + rewrite Z.abs_eq by lia. unfold JS.jsonNumber, JS.isFinite.
      destruct (Z.ltb_spec (Z.abs (queryPage query)) JS.infinity); [reflexivity | lia].
    + unfold Model.matches, buildQuery; simpl. rewrite Ega, Egs. reflexivity.
Qed.

Lemma list_filter_witness :
  exists f : Post -> bool,
    (forall p, f p = true <-> selected Sample.searchQuery p)
    /\ let found := List.filter f (posts Sample.threeStore) in
       let data := take (Z.to_nat (queryLimit Sample.searchQuery))
                     (drop (Z.to_nat ((queryPage Sample.searchQuery - 1)
                                      * queryLimit Sample.searchQuery))
                        (Model.sortDesc found)) in
       getAllPosts Sample.searchQuery Sample.threeStore
         = Some (respond 200
                   (PageData (Z.of_nat (length data)) (Z.of_nat (length found))
                      (Some (queryPage Sample.searchQuery))
                      (JS.ceilDiv (Z.of_nat (length found))
                         (queryLimit Sample.searchQuery)) data)
                   Sample.threeStore
                   [CallFind (buildQuery Sample.searchQuery)
                      ((queryPage Sample.searchQuery - 1) * queryLimit Sample.searchQuery)
                      (queryLimit Sample.searchQuery);
                    CallCountDocuments (buildQuery Sample.searchQuery)]).
Proof.
  apply (list_filter Sample.searchQuery Sample.threeStore).
  - change (Sample.searchQuery !! "author") with (Some "bo").
    intros a [= <-]. reflexivity.
  - change (Sample.searchQuery !! "search") with (Some "SECOND").
    intros s [= <-]. reflexivity.
  - vm_compute. split; [discriminate | reflexivity].
  - vm_compute. split; reflexivity.
Defined.

Example search_example :
  pageData (getAllPosts Sample.searchQuery Sample.threeStore) = [Sample.postB].
Proof. reflexivity. Qed.

(** C6 as stated fails: the search string "." is taken as a regular
    expression, in which the dot stands for any character; the post is
    found although neither its title nor its content contains a dot. *)
Lemma search_dot_matches :
  getAllPosts Sample.dotQuery Sample.oneStore
    = Some (respond 200 (PageData 1 1 (Some 1) 1 [Sample.helloPost]) Sample.oneStore
              [CallFind Sample.dotFilter 0 10; CallCountDocuments Sample.dotFilter])
  /\ ~ containsIgnoringCase "." (title Sample.helloPost)
  /\ ~ containsIgnoringCase "." (content Sample.helloPost).
Proof.
  split; [reflexivity|].
  split; intros H; apply test_contains in H; discriminate H.
Qed.

(** ** The collection under update and delete *)

Section Collection.

Implicit Types (l : list Post) (id : ObjectId) (p : Post).

Lemma findOne_Some id l p : Model.findOne id l = Some p -> p ∈ l /\ _id p = id.
Proof.
  induction l as [|q l IH]; simpl; [discriminate|].
  destruct (N.eqb_spec (_id q) id) as [E|_].
  - intros [= <-]. split; [left | exact E].
  - intros H. destruct (IH H). split; [by right | assumption].
Qed.

Lemma findOne_None id l : Model.findOne id l = None <-> id ∉ _id <$> l.
Proof.
  induction l as [|q l IH]; simpl.
  - split; [intros _ H; inversion H | reflexivity].
  - rewrite not_elem_of_cons. destruct (N.eqb_spec (_id q) id) as [E|NE].
    + split; [discriminate | intros [H _]; congruence].
    + rewrite IH. split; [intros H; split; [congruence | exact H] | intros [_ H]; exact H].
Qed.

Lemma deleteOne_ids id l : NoDup (_id <$> l) -> id ∉ _id <$> Model.deleteOne id l.
Proof.
  induction l as [|q l IH]; simpl; intros Hnd; [intros H; inversion H|].
  apply NoDup_cons in Hnd as [Hq Hnd].
  destruct (N.eqb_spec (_id q) id) as [E|NE].
  - rewrite <- E. exact Hq.
  - simpl. rewrite not_elem_of_cons. split; [congruence | apply IH, Hnd].
Qed.

Lemma deleteOne_sublist id l : sublist (Model.deleteOne id l) l.
Proof.
  induction l as [|q l IH]; simpl; [constructor|].
  destruct (N.eqb (_id q) id); [by apply sublist_cons | by apply sublist_skip].
Qed.

Lemma replaceOne_ids id p l : _id p = id -> _id <$> Model.replaceOne id p l = _id <$> l.
Proof.
  intros Hp. induction l as [|q l IH]; simpl; [reflexivity|].
  destruct (N.eqb_spec (_id q) id) as [E|NE]; rewrite !fmap_cons.
  - rewrite Hp, E. reflexivity.
  - rewrite IH. reflexivity.
Qed.

Lemma findOne_replaceOne id p l :
  _id p = id -> id ∈ _id <$> l -> Model.findOne id (Model.replaceOne id p l) = Some p.
Proof.
  intros Hp. induction l as [|q l IH]; simpl; [intros H; inversion H|].
  intros H. destruct (N.eqb_spec (_id q) id) as [E|NE]; simpl.
  - rewrite Hp, N.eqb_refl. reflexivity.
  - destruct (N.eqb_spec (_id q) id); [contradiction|].
    apply IH. apply elem_of_cons in H as [H|H]; [congruence | exact H].
Qed.

(** The posts other than the one replaced stay as they are. *)
Lemma findOne_replaceOne_ne id id' p l :
  _id p = id -> id' <> id ->
  Model.findOne id' (Model.replaceOne id p l) = Model.findOne id' l.
Proof.
  intros Hp Hne. induction l as [|q l IH]; simpl; [reflexivity|].
  destruct (N.eqb_spec (_id q) id) as [E|NE]; simpl.
  - destruct (N.eqb_spec (_id p) id'), (N.eqb_spec (_id q) id'); congruence.
  - destruct (N.eqb_spec (_id q) id'); [reflexivity | exact IH].
Qed.

Lemma storeOk_delete id (st : Store) :
  storeOk st -> storeOk (Model.findByIdAndDelete id st).2.
Proof.
  intros [Hnd Hlt]. unfold Model.findByIdAndDelete.
  destruct (Model.findOne id (posts st)); simpl; [|by split].
  pose proof (deleteOne_sublist id (posts st)) as Hsub. split; simpl.
  - eapply sublist_NoDup; [exact Hnd | by apply fmap_sublist].
  - rewrite Forall_forall in Hlt. apply Forall_forall. intros q Hq.
    apply Hlt. eapply elem_of_sublist; [exact Hq | exact Hsub].
Qed.

Lemma storeOk_replace id p (st : Store) :
  storeOk st -> _id p = id ->
  storeOk {| posts := Model.replaceOne id p (posts st); nextId := nextId st |}.
Proof.
  intros [Hnd Hlt] Hp. split; simpl.
  - by rewrite replaceOne_ids.
  - rewrite Forall_forall in Hlt. apply Forall_forall. intros q Hq.
    assert (Hin : _id q ∈ _id <$> Model.replaceOne id p (posts st))
      by (apply list_elem_of_fmap; eauto).
    rewrite replaceOne_ids in Hin by exact Hp.
    apply list_elem_of_fmap in Hin as [q' [E Hq']]. rewrite E. by apply Hlt.
Qed.

End Collection.

(** ** GetById, Update and Delete *)

Section Identifiers.

Variable castObjectId : string -> option ObjectId.

Lemma updateDataOf_lookup (body : gmap string JS.value) :
  updateDataOf body !! "title" = body !! "title"
  /\ updateDataOf body !! "content" = body !! "content"
  /\ updateDataOf body !! "author" = body !! "author".
Proof.
  unfold updateDataOf.
  split; [apply object_title | split; [apply object_content | apply object_author]].
Qed.

(** [updatePost] once the identifier is well formed. *)
Lemma updatePost_cast (now : Z) (id : string) (oid : ObjectId)
    (body : gmap string JS.value) (st : Store) :
  castObjectId id = Some oid ->
  updatePost castObjectId now id body st
    = if Nat.eqb (size (updateDataOf body)) 0 then
        respond 400 (Failure "No fields provided for update") st []
      else
        match Model.findByIdAndUpdate now oid (updateDataOf body) st with
        | (Mongoose.Resolved None, st') =>
            respond 404 (Failure "Post not found") st'
              [CallFindByIdAndUpdate oid (updateDataOf body)]
        | (Mongoose.Resolved (Some post), st') =>
            respond 200 (PostData (Some "Post updated successfully") post) st'
              [CallFindByIdAndUpdate oid (updateDataOf body)]
        | (Mongoose.ValidationError errors, st') =>
            respond 400 (ValidationFailure "Validation failed" (snd <$> errors)) st'
              [CallFindByIdAndUpdate oid (updateDataOf body)]
        | (Mongoose.MongoError _, st') =>
            respond 500 (ServerFailure "Server error while updating post") st'
              [CallFindByIdAndUpdate oid (updateDataOf body)]
        end.
Proof. intros H. unfold updatePost. rewrite H. reflexivity. Qed.

Lemma updateDataOf_size (body : gmap string JS.value) :
  is_Some (body !! "title") \/ is_Some (body !! "content") \/ is_Some (body !! "author") ->
  Nat.eqb (size (updateDataOf body)) 0 = false.
Proof.
  intros H. unfold updateDataOf. rewrite object_size. apply Nat.eqb_neq.
  destruct H as [[x ->] | [[x ->] | [x ->]]]; simpl;
    repeat match goal with |- context [bool_decide ?P] => destruct (bool_decide P) end;
    simpl; lia.
Qed.

Lemma withinBounds_title (v : option JS.value) :
  withinBounds 3 (Some 100%nat) v -> pathErrors Schema.title v = [].
Proof.
  destruct v as [x|]; [|reflexivity]. unfold withinBounds, pathErrors.
  destruct (Mongoose.castString (Some x)) as [s|]; [|contradiction].
  intros H. apply fmap_nil_inv with (f := snd).
  change (Mongoose.applySetters Schema.title (Some s)) with (Some (JS.trim s)).
  rewrite validate_title. fold (trimmedLength s).
  revert H. unfold outOfBounds, titleError. nat_cases; discriminate.
Qed.

Lemma withinBounds_content (v : option JS.value) :
  withinBounds 10 None v -> pathErrors Schema.content v = [].
Proof.
  destruct v as [x|]; [|reflexivity]. unfold withinBounds, pathErrors.
  destruct (Mongoose.castString (Some x)) as [s|]; [|contradiction].
  intros H. apply fmap_nil_inv with (f := snd).
  change (Mongoose.applySetters Schema.content (Some s)) with (Some (JS.trim s)).
  rewrite validate_content. fold (trimmedLength s).
  revert H. unfold outOfBounds, contentError. nat_cases; discriminate.
Qed.

Lemma withinBounds_author (v : option JS.value) :
  withinBounds 2 (Some 50%nat) v -> pathErrors Schema.author v = [].
Proof.
  destruct v as [x|]; [|reflexivity]. unfold withinBounds, pathErrors.
  destruct (Mongoose.castString (Some x)) as [s|]; [|contradiction].
  intros H. apply fmap_nil_inv with (f := snd).
  change (Mongoose.applySetters Schema.author (Some s)) with (Some (JS.trim s)).
  rewrite validate_author. fold (trimmedLength s).
  revert H. unfold outOfBounds, authorError. nat_cases; discriminate.
Qed.

(** [updatePost] on a well-formed identifier and an acceptable body:
    the post, if there is one, gets the new values. *)
Lemma updatePost_acceptable (now : Z) (id : string) (oid : ObjectId)
    (body : gmap string JS.value) (st : Store) :
  castObjectId id = Some oid ->
  acceptableUpdate body ->
  updatePost castObjectId now id body st
    = match Model.findOne oid (posts st) with
      | None =>
          respond 404 (Failure "Post not found") st
            [CallFindByIdAndUpdate oid (updateDataOf body)]
      | Some p =>
          let upd := updateDataOf body in
          let p' := {| _id := _id p;
                       title := Model.setField (Model.updatePath Schema.title upd) (title p);
                       content := Model.setField (Model.updatePath Schema.content upd) (content p);
                       author := Model.setField (Model.updatePath Schema.author upd) (author p);
                       createdAt := createdAt p;
                       updatedAt := now |} in
          respond 200 (PostData (Some "Post updated successfully") p')
            {| posts := Model.replaceOne oid p' (posts st); nextId := nextId st |}
            [CallFindByIdAndUpdate oid upd]
      end.
Proof.
  intros Hid [Hsome [Ht [Hc Ha]]].
  rewrite (updatePost_cast now id oid body st Hid), updateDataOf_size by exact Hsome.
  destruct (updateDataOf_lookup body) as [Et [Ec Ea]].
  rewrite findByIdAndUpdate_valid.
  - destruct (Model.findOne oid (posts st)); reflexivity.
  - rewrite Et, Ec, Ea, withinBounds_title, withinBounds_content, withinBounds_author
      by assumption. reflexivity.
Qed.

End Identifiers.

(** C7 (as amended).  An identifier that is not well formed gets 400
    from GetById, Update and Delete before any call on the store.  A
    well-formed identifier that no post has gets 404 from GetById and
    from Delete, and from Update when the body names at least one of the
    three fields and gives only values within their bounds.  After a
    Delete, GetById on the same identifier answers 404. *)
Theorem identifier_errors (castObjectId : string -> option ObjectId) (now : Z)
    (id : string) (body : gmap string JS.value) (st : Store) :
  (castObjectId id = None ->
     getPostById castObjectId id st = respond 400 (Failure "Invalid post ID format") st []
     /\ updatePost castObjectId now id body st
        = respond 400 (Failure "Invalid post ID format") st []
     /\ deletePost castObjectId id st = respond 400 (Failure "Invalid post ID format") st [])
  /\ (forall oid, castObjectId id = Some oid -> Model.findById oid st = None ->
     getPostById castObjectId id st
       = respond 404 (Failure "Post not found") st [CallFindById oid]
     /\ deletePost castObjectId id st
        = respond 404 (Failure "Post not found") st [CallFindByIdAndDelete oid]
     /\ (acceptableUpdate body ->
         updatePost castObjectId now id body st
           = respond 404 (Failure "Post not found") st
               [CallFindByIdAndUpdate oid (updateDataOf body)]))
  /\ (forall oid, castObjectId id = Some oid -> storeOk st ->
     response (getPostById castObjectId id (store (deletePost castObjectId id st)))
       = {| status := 404; json := Failure "Post not found" |}).
Proof.
  split; [|split].
  - intros H. unfold getPostById, updatePost, deletePost. rewrite H. auto.
  - intros oid Hid Hnone. unfold Model.findById in Hnone. split; [|split].
    + unfold getPostById, Model.findById. rewrite Hid, Hnone. reflexivity.
    + unfold deletePost, Model.findByIdAndDelete. rewrite Hid, Hnone. reflexivity.
    + intros Hacc. rewrite (updatePost_acceptable castObjectId now id oid body st Hid Hacc).
      rewrite Hnone. reflexivity.
  - intros oid Hid [Hnd _]. unfold getPostById at 1. rewrite Hid.
    assert (Hgone : Model.findById oid (store (deletePost castObjectId id st)) = None).
    { unfold deletePost, Model.findByIdAndDelete, Model.findById. rewrite Hid.
      destruct (Model.findOne oid (posts st)) eqn:E; simpl; [|exact E].
      apply findOne_None, deleteOne_ids, Hnd. }
    rewrite Hgone. reflexivity.
Qed.

Lemma identifier_errors_witness :
  (getPostById hexObjectId "no-such-id" Sample.oneStore
     = respond 400 (Failure "Invalid post ID format") Sample.oneStore []
   /\ updatePost hexObjectId 2000 "no-such-id" Sample.retitleBody Sample.oneStore
      = respond 400 (Failure "Invalid post ID format") Sample.oneStore []
   /\ deletePost hexObjectId "no-such-id" Sample.oneStore
      = respond 400 (Failure "Invalid post ID format") Sample.oneStore [])
  /\ (exists oid,
      getPostById hexObjectId Sample.unknownId Sample.oneStore
        = respond 404 (Failure "Post not found") Sample.oneStore [CallFindById oid]
      /\ deletePost hexObjectId Sample.unknownId Sample.oneStore
         = respond 404 (Failure "Post not found") Sample.oneStore
             [CallFindByIdAndDelete oid]
      /\ updatePost hexObjectId 2000 Sample.unknownId Sample.retitleBody Sample.oneStore
         = respond 404 (Failure "Post not found") Sample.oneStore
             [CallFindByIdAndUpdate oid (updateDataOf Sample.retitleBody)])
  /\ response (getPostById hexObjectId Sample.helloId
                 (store (deletePost hexObjectId Sample.helloId Sample.oneStore)))
     = {| status := 404; json := Failure "Post not found" |}.
Proof.
  split; [|split].
  - apply (identifier_errors hexObjectId 2000 "no-such-id" Sample.retitleBody Sample.oneStore).
    reflexivity.
  - destruct (identifier_errors hexObjectId 2000 Sample.unknownId Sample.retitleBody
                Sample.oneStore) as [_ [H _]].
    specialize (H _ eq_refl eq_refl). destruct H as [H1 [H2 H3]].
    eexists. split; [exact H1|]. split; [exact H2|]. apply H3.
    split; [left; eexists; reflexivity|]. repeat split.
  - apply (identifier_errors hexObjectId 2000 Sample.helloId Sample.retitleBody
             Sample.oneStore) with (oid := 0%N); [reflexivity|].
    split; simpl; repeat constructor. inversion 1.
Defined.

(** C7 as stated fails for Update: on a well-formed identifier that no
    post has, an Update without any of the three fields is answered with
    400, not 404, and the store is not consulted. *)
Lemma update_unknown_id_no_fields :
  is_Some (hexObjectId Sample.unknownId)
  /\ (hexObjectId Sample.unknownId ≫= fun oid => Model.findById oid Sample.oneStore) = None
  /\ updatePost hexObjectId 2000 Sample.unknownId ∅ Sample.oneStore
     = respond 400 (Failure "No fields provided for update") Sample.oneStore [].
Proof. split; [eexists; reflexivity | split; reflexivity]. Qed.

(** ** Update: the fields *)

Section UpdateFields.

Variable castObjectId : string -> option ObjectId.

Lemma updateDataOf_other (body : gmap string JS.value) (k : string) :
  k <> "title" -> k <> "content" -> k <> "author" -> updateDataOf body !! k = None.
Proof.
  intros Ht Hc Ha. unfold updateDataOf, setDefined.
  destruct (body !! "title"), (body !! "content"), (body !! "author");
    by simplify_map_eq.
Qed.

Lemma validate_empty (sch : Schema.SchemaString) (m : string) :
  Schema.required sch = Some m ->
  Mongoose.validatePath sch (Some "") = [(Schema.path sch, m)].
Proof.
  intros H. unfold Mongoose.validatePath, Mongoose.doValidate, Mongoose.validators.
  rewrite H. reflexivity.
Qed.

Lemma emptyValue_errors (sch : Schema.SchemaString) (m : string) (v : option JS.value) :
  Schema.required sch = Some m -> Schema.trim sch = true ->
  emptyValue v -> pathErrors sch v = [(Schema.path sch, m)].
Proof.
  intros Hreq Htrim [-> | [s [-> Hs]]]; unfold pathErrors, Mongoose.applySetters;
    rewrite Htrim; simpl.
  - apply validate_null, Hreq.
  - unfold trimmedLength in Hs. destruct (JS.trim s); [|discriminate Hs].
    apply validate_empty, Hreq.
Qed.

(** An Update on a well-formed identifier whose body makes a validator
    fail: the answer is 400 with the messages, and nothing is stored. *)
Lemma updatePost_errors (now : Z) (id : string) (oid : ObjectId)
    (body : gmap string JS.value) (st : Store) (m : string) :
  castObjectId id = Some oid ->
  m ∈ snd <$> (pathErrors Schema.author (body !! "author")
               ++ pathErrors Schema.content (body !! "content")
               ++ pathErrors Schema.title (body !! "title")) ->
  exists errors,
    updatePost castObjectId now id body st
      = respond 400 (ValidationFailure "Validation failed" errors) st
          [CallFindByIdAndUpdate oid (updateDataOf body)]
    /\ m ∈ errors.
Proof.
  intros Hid Hm.
  assert (Hsome : is_Some (body !! "title") \/ is_Some (body !! "content")
                  \/ is_Some (body !! "author")).
  { destruct (body !! "title"); [left; eauto|].
    destruct (body !! "content"); [right; left; eauto|].
    destruct (body !! "author"); [right; right; eauto|].
    simpl in Hm. inversion Hm. }
  destruct (updateDataOf_lookup body) as [Et [Ec Ea]].
  rewrite (updatePost_cast castObjectId now id oid body st Hid), updateDataOf_size
    by exact Hsome.
  rewrite findByIdAndUpdate_errors; rewrite Et, Ec, Ea.
  - eexists. split; [reflexivity | exact Hm].
  - intros E. rewrite E in Hm. inversion Hm.
Qed.

(** The field that an acceptable update sets. *)
Lemma setField_updatedField (sch : Schema.SchemaString) (upd : gmap string JS.value)
    (lo : nat) (hi : option nat) (old : string) :
  Schema.trim sch = true ->
  withinBounds lo hi (upd !! Schema.path sch) ->
  Some (Model.setField (Model.updatePath sch upd) old)
    = updatedField (upd !! Schema.path sch) old.
Proof.
  intros Htrim. unfold Model.updatePath, Mongoose.castPath, Mongoose.applySetters,
    withinBounds, updatedField.
  rewrite Htrim. destruct (upd !! Schema.path sch) as [x|]; [|reflexivity].
  destruct (Mongoose.castString (Some x)); [reflexivity | contradiction].
Qed.

End UpdateFields.

(** C8 (as amended).  An Update on a well-formed identifier considers
    only the fields title, content and author that the body gives.  With
    none of them the answer is 400 "No fields provided for update" and
    the store is not touched.  A field given as null, or as a string
    that is empty after trimming, is not taken as unchanged: it goes to
    validation and fails the required constraint of that field, and the
    answer is 400 with the message that the field is required.  When the
    update succeeds, a field that the body does not give keeps its
    value. *)
Theorem update_fields (castObjectId : string -> option ObjectId) (now : Z) (id : string)
    (oid : ObjectId) (body : gmap string JS.value) (st : Store) :
  castObjectId id = Some oid ->
  (forall k, updateDataOf body !! k
             = if bool_decide (k ∈ ["title"; "content"; "author"]) then body !! k else None)
  /\ (body !! "title" = None -> body !! "content" = None -> body !! "author" = None ->
      updatePost castObjectId now id body st
        = respond 400 (Failure "No fields provided for update") st [])
  /\ (forall k m, (k, m) ∈ [("title", "Title is required");
                             ("content", "Content is required");
                             ("author", "Author name is required")] ->
      emptyValue (body !! k) ->
      exists errors,
        updatePost castObjectId now id body st
          = respond 400 (ValidationFailure "Validation failed" errors) st
              [CallFindByIdAndUpdate oid (updateDataOf body)]
        /\ m ∈ errors)
  /\ (forall p, Model.findById oid st = Some p -> acceptableUpdate body ->
      exists p',
        response (updatePost castObjectId now id body st)
          = {| status := 200; json := PostData (Some "Post updated successfully") p' |}
        /\ Model.findById oid (store (updatePost castObjectId now id body st)) = Some p'
        /\ (body !! "title" = None -> title p' = title p)
        /\ (body !! "content" = None -> content p' = content p)
        /\ (body !! "author" = None -> author p' = author p)).
Proof.
  intros Hid. destruct (updateDataOf_lookup body) as [Et [Ec Ea]].
  split; [|split; [|split]].
  - intros k. case_bool_decide as Hk.
    + repeat (apply elem_of_cons in Hk as [-> | Hk]); try assumption. inversion Hk.
    + apply updateDataOf_other; intros ->; apply Hk; set_solver.
  - intros Ht Hc Ha. rewrite (updatePost_cast castObjectId now id oid body st Hid).
    unfold updateDataOf. rewrite Ht, Hc, Ha. reflexivity.
  - intros k m Hk He.
    apply (updatePost_errors castObjectId now id oid body st m Hid).
    rewrite !fmap_app, !elem_of_app.
    repeat (apply elem_of_cons in Hk as [[= -> ->] | Hk]); [| | | inversion Hk].
    + right; right.
      rewrite (emptyValue_errors Schema.title _ _ eq_refl eq_refl He). by left.
    + right; left.
      rewrite (emptyValue_errors Schema.content _ _ eq_refl eq_refl He). by left.
    + left. rewrite (emptyValue_errors Schema.author _ _ eq_refl eq_refl He). by left.
  - intros p Hp Hacc. unfold Model.findById in Hp.
    rewrite (updatePost_acceptable castObjectId now id oid body st Hid Hacc), Hp.
    destruct (findOne_Some _ _ _ Hp) as [Hin Hpid].
    eexists. split; [reflexivity|]. split; [|split; [|split]].
    + cbn [store respond]. unfold Model.findById. cbn [posts].
      apply findOne_replaceOne; [exact Hpid|].
      rewrite <- Hpid. apply list_elem_of_fmap. eauto.
    + intros H. cbn [title]. unfold Model.updatePath.
      change (Schema.path Schema.title) with "title". rewrite Et, H. reflexivity.
    + intros H. cbn [content]. unfold Model.updatePath.
      change (Schema.path Schema.content) with "content". rewrite Ec, H. reflexivity.
    + intros H. cbn [author]. unfold Model.updatePath.
      change (Schema.path Schema.author) with "author". rewrite Ea, H. reflexivity.
Qed.

Lemma update_fields_witness :
  (exists errors,
     updatePost hexObjectId 2000 Sample.helloId Sample.nullTitleBody Sample.oneStore
       = respond 400 (ValidationFailure "Validation failed" errors) Sample.oneStore
           [CallFindByIdAndUpdate 0%N (updateDataOf Sample.nullTitleBody)]
     /\ "Title is required" ∈ errors)
  /\ (exists p',
        response (updatePost hexObjectId 2000 Sample.helloId Sample.retitleBody
                    Sample.oneStore)
          = {| status := 200; json := PostData (Some "Post updated successfully") p' |}
        /\ Model.findById 0%N
             (store (updatePost hexObjectId 2000 Sample.helloId Sample.retitleBody
                       Sample.oneStore)) = Some p'
        /\ content p' = content Sample.helloPost
        /\ author p' = author Sample.helloPost).
Proof.
  split.
  - destruct (update_fields hexObjectId 2000 Sample.helloId 0%N Sample.nullTitleBody
                Sample.oneStore eq_refl) as [_ [_ [H _]]].
    apply (H "title" "Title is required"); [by left | by left].
  - destruct (update_fields hexObjectId 2000 Sample.helloId 0%N Sample.retitleBody
                Sample.oneStore eq_refl) as [_ [_ [_ H]]].
    destruct (H Sample.helloPost eq_refl) as [p' [H1 [H2 [_ [H3 H4]]]]].
    + split; [left; eexists; reflexivity|]. repeat split.
    + exists p'. split; [exact H1|]. split; [exact H2|].
      split; [apply H3 | apply H4]; reflexivity.
Defined.

(** C8 as stated fails: a null or an empty title does not fail the
    minimum-length constraint of the title.  The minimum-length validator
    accepts null, and the required validator, which runs before it,
    refuses both values: the only message is "Title is required", and
    "Title must be at least 3 characters long" is not given. *)
Lemma update_null_not_minlength :
  Mongoose.minlengthValidator 3 None = true
  /\ updatePost hexObjectId 2000 Sample.helloId Sample.nullTitleBody Sample.oneStore
     = respond 400 (ValidationFailure "Validation failed" ["Title is required"])
         Sample.oneStore [CallFindByIdAndUpdate 0%N Sample.nullTitleBody]
  /\ updatePost hexObjectId 2000 Sample.helloId Sample.emptyTitleBody Sample.oneStore
     = respond 400 (ValidationFailure "Validation failed" ["Title is required"])
         Sample.oneStore [CallFindByIdAndUpdate 0%N Sample.emptyTitleBody].
Proof. repeat split. Qed.

(** C9 (as amended).  A successful Update of an existing post changes
    the fields that the body gives, to the given values cast to strings
    and trimmed, and no other field: the fields not given, the identifier
    and createdAt keep their values, and the other posts are as before.
    updatedAt becomes the time of the update; it is later than the
    previous updatedAt whenever the clock has advanced since, and
    createdAt <= updatedAt still holds whenever the clock has not gone
    back. *)
Theorem update_frame (castObjectId : string -> option ObjectId) (now : Z) (id : string)
    (oid : ObjectId) (body : gmap string JS.value) (st : Store) (p : Post) :
  castObjectId id = Some oid ->
  Model.findById oid st = Some p ->
  acceptableUpdate body ->
  exists p',
    response (updatePost castObjectId now id body st)
      = {| status := 200; json := PostData (Some "Post updated successfully") p' |}
    /\ Model.findById oid (store (updatePost castObjectId now id body st)) = Some p'
    /\ (forall oid', oid' <> oid ->
          Model.findById oid' (store (updatePost castObjectId now id body st))
            = Model.findById oid' st)
    /\ Some (title p') = updatedField (body !! "title") (title p)
    /\ Some (content p') = updatedField (body !! "content") (content p)
    /\ Some (author p') = updatedField (body !! "author") (author p)
    /\ _id p' = _id p
    /\ createdAt p' = createdAt p
    /\ updatedAt p' = now
    /\ (updatedAt p < now -> updatedAt p < updatedAt p')
    /\ (createdAt p <= updatedAt p -> updatedAt p <= now -> createdAt p' <= updatedAt p').
Proof.
  intros Hid Hp Hacc. unfold Model.findById in Hp.
  rewrite (updatePost_acceptable castObjectId now id oid body st Hid Hacc), Hp.
  destruct (findOne_Some _ _ _ Hp) as [Hin Hpid].
  destruct (updateDataOf_lookup body) as [Et [Ec Ea]].
  destruct Hacc as [_ [Ht [Hc Ha]]].
  eexists. split; [reflexivity|]. cbn [store respond title content author _id createdAt
    updatedAt]. unfold Model.findById. cbn [posts].
  split; [|split; [|split; [|split; [|split]]]].
  - apply findOne_replaceOne; [exact Hpid|].
    rewrite <- Hpid. apply list_elem_of_fmap. eauto.
  - intros oid' Hne. apply findOne_replaceOne_ne; [exact Hpid | exact Hne].
  - rewrite <- Et. apply (setField_updatedField Schema.title _ 3 (Some 100%nat)).
    + reflexivity.
    + change (Schema.path Schema.title) with "title". rewrite Et. exact Ht.
  - rewrite <- Ec. apply (setField_updatedField Schema.content _ 10 None).
    + reflexivity.
    + change (Schema.path Schema.content) with "content". rewrite Ec. exact Hc.
  - rewrite <- Ea. apply (setField_updatedField Schema.author _ 2 (Some 50%nat)).
    + reflexivity.
    + change (Schema.path Schema.author) with "author". rewrite Ea. exact Ha.
  - repeat split; try reflexivity; lia.
Qed.

Lemma update_frame_witness :
  exists p',
    response (updatePost hexObjectId 2000 Sample.helloId Sample.retitleBody Sample.oneStore)
      = {| status := 200; json := PostData (Some "Post updated successfully") p' |}
    /\ title p' = "New title"
    /\ content p' = content Sample.helloPost
    /\ author p' = author Sample.helloPost
    /\ createdAt p' = 1000
    /\ updatedAt p' = 2000.
Proof.
  destruct (update_frame hexObjectId 2000 Sample.helloId 0%N Sample.retitleBody
              Sample.oneStore Sample.helloPost eq_refl eq_refl)
    as [p' [H1 [_ [_ [H2 [H3 [H4 [_ [H5 [H6 _]]]]]]]]]].
  - split; [left; eexists; reflexivity|]. repeat split.
  - exists p'. split; [exact H1|].
    injection H2 as H2. injection H3 as H3. injection H4 as H4.
    repeat split; assumption.
Defined.

(** A number given for a field is stored as JavaScript prints it: with
    the digits of the nearest double beyond 2^53, and in exponent
    notation from 10^21 on, which is too short for a content. *)
Example update_number_fields :
  response (updatePost hexObjectId 2000 Sample.helloId
              {[ "title" := JS.VNum 12345678901234567890 ]} Sample.oneStore)
    = {| status := 200;
         json := PostData (Some "Post updated successfully")
                   {| _id := 0%N; title := "12345678901234567000";
                      content := "0123456789"; author := "Al";
                      createdAt := 1000; updatedAt := 2000 |} |}
  /\ response (updatePost hexObjectId 2000 Sample.helloId
                 {[ "content" := JS.VNum (10 ^ 21) ]} Sample.oneStore)
     = validationFailed ["Content must be at least 10 characters long"]
  /\ response (createPost 2000 (<["content" := JS.VNum (10 ^ 21)]> Sample.helloBody)
                 Sample.oneStore)
     = validationFailed ["Content must be at least 10 characters long"].
Proof. repeat split. Qed.

(** C9 as stated fails: an Update in the millisecond in which the post
    was last written succeeds and leaves updatedAt at its previous
    value, 1000; it has not strictly increased. *)
Lemma update_same_millisecond :
  updatedAt Sample.helloPost = 1000
  /\ response (updatePost hexObjectId 1000 Sample.helloId Sample.retitleBody Sample.oneStore)
     = {| status := 200;
          json := PostData (Some "Post updated successfully")
                    {| _id := 0%N; title := "New title"; content := "0123456789";
                       author := "Al"; createdAt := 1000; updatedAt := 1000 |} |}.
Proof. split; reflexivity. Qed.

(** C10.  A property of a Create or Update body other than title,
    content and author changes nothing: the handler does the same with
    and without it.  The identifier and createdAt of a created post come
    from the system, and an Update keeps both. *)
Theorem body_other_properties (castObjectId : string -> option ObjectId) (now : Z)
    (id : string) (body : gmap string JS.value) (st : Store) (k : string) (v : JS.value) :
  k <> "title" -> k <> "content" -> k <> "author" ->
  createPost now (<[k := v]> body) st = createPost now body st
  /\ updatePost castObjectId now id (<[k := v]> body) st
     = updatePost castObjectId now id body st
  /\ (forall m p, json (response (createPost now (<[k := v]> body) st)) = PostData m p ->
        _id p = nextId st /\ createdAt p = now /\ updatedAt p = now)
  /\ (forall m p', json (response (updatePost castObjectId now id (<[k := v]> body) st))
                     = PostData m p' ->
        exists oid p, castObjectId id = Some oid /\ Model.findById oid st = Some p
          /\ _id p' = _id p /\ createdAt p' = createdAt p /\ updatedAt p' = now).
Proof.
  intros Ht Hc Ha.
  assert (Hcreate : createPost now (<[k := v]> body) st = createPost now body st).
  { unfold createPost. by rewrite !lookup_insert_ne. }
  assert (Hupdate : updatePost castObjectId now id (<[k := v]> body) st
                    = updatePost castObjectId now id body st).
  { unfold updatePost. by rewrite !lookup_insert_ne. }
  split; [exact Hcreate|]. split; [exact Hupdate|]. split.
  - intros m p. rewrite Hcreate. unfold createPost, Model.create.
    repeat case_match; simplify_eq/=; try discriminate.
    intros [= _ <-]. auto.
  - intros m p'. rewrite Hupdate. unfold updatePost, Model.findByIdAndUpdate, Model.findById.
    repeat case_match; simplify_eq/=; try discriminate.
    intros [= _ <-]. eauto 10.
Qed.

Lemma body_other_properties_witness :
  createPost 1000 (<["createdAt" := JS.VNum 1]> Sample.helloBody) emptyStore
    = createPost 1000 Sample.helloBody emptyStore
  /\ updatePost hexObjectId 2000 Sample.helloId
       (<["_id" := JS.VStr "ffff"]> Sample.retitleBody) Sample.oneStore
     = updatePost hexObjectId 2000 Sample.helloId Sample.retitleBody Sample.oneStore.
Proof.
  split.
  - apply (body_other_properties hexObjectId 1000 Sample.helloId Sample.helloBody emptyStore
             "createdAt" (JS.VNum 1)); discriminate.
  - apply (body_other_properties hexObjectId 2000 Sample.helloId Sample.retitleBody
             Sample.oneStore "_id" (JS.VStr "ffff")); discriminate.
Defined.

Example forged_body_ignored :
  createPost 1000 Sample.forgedBody emptyStore
    = createPost 1000 Sample.helloBody emptyStore.
Proof. reflexivity. Qed.

(** ** The invariant of the collection *)

Section Invariant.

Variable castObjectId : string -> option ObjectId.

Lemma storeOk_empty : storeOk emptyStore.
Proof. split; constructor. Qed.

(** Every handler keeps the identifiers distinct and below the counter
    of the generator. *)
Lemma storeOk_createPost (now : Z) (body : gmap string JS.value) (st : Store) :
  storeOk st -> storeOk (store (createPost now body st)).
Proof.
  intros Hok. unfold createPost, Model.create.
  repeat case_match; simplify_eq/=; try exact Hok.
  apply storeOk_create; [exact Hok | reflexivity].
Qed.

Lemma storeOk_updatePost (now : Z) (id : string) (body : gmap string JS.value)
    (st : Store) :
  storeOk st -> storeOk (store (updatePost castObjectId now id body st)).
Proof.
  intros Hok. unfold updatePost, Model.findByIdAndUpdate.
  repeat case_match; simplify_eq/=; try exact Hok.
  apply storeOk_replace; [exact Hok|].
  simpl. eapply findOne_Some. eassumption.
Qed.

Lemma storeOk_deletePost (id : string) (st : Store) :
  storeOk st -> storeOk (store (deletePost castObjectId id st)).
Proof.
  intros Hok. unfold deletePost.
  destruct (castObjectId id) as [oid|]; [|exact Hok].
  pose proof (storeOk_delete oid st Hok) as H.
  destruct (Model.findByIdAndDelete oid st) as [[p|] st']; exact H.
Qed.

Lemma store_getPostById (id : string) (st : Store) :
  store (getPostById castObjectId id st) = st.
Proof. unfold getPostById. repeat case_match; reflexivity. Qed.

Lemma store_getAllPosts (query : gmap string string) (st : Store) (o : Outcome) :
  getAllPosts query st = Some o -> store o = st.
Proof.
  unfold getAllPosts, Model.find, Model.countDocuments.
  destruct (Model.matches _); simpl; [|discriminate].
  destruct (Model.paginate _ _ _); intros [= <-]; reflexivity.
Qed.

End Invariant.

(** ** Trimming is idempotent *)

Section Trimming.

Lemma trimEnd_idem (s : string) : JS.trimEnd (JS.trimEnd s) = JS.trimEnd s.
Proof.
  induction s as [|c s IH]; simpl; [reflexivity|].
  destruct (JS.trimEnd s) as [|d r] eqn:E.
  - destruct (JS.isWhiteSpace c) eqn:Ec; simpl; [reflexivity|]. by rewrite Ec.
  - change (JS.trimEnd (String c (String d r)))
      with (match JS.trimEnd (String d r) with
            | EmptyString => if JS.isWhiteSpace c then EmptyString else String c EmptyString
            | r' => String c r'
            end).
    rewrite IH. reflexivity.
Qed.

Lemma trimStart_head (s : string) :
  JS.trimStart s = EmptyString
  \/ exists c r, JS.trimStart s = String c r /\ JS.isWhiteSpace c = false.
Proof.
  induction s as [|c s IH]; simpl; [by left|].
  destruct (JS.isWhiteSpace c) eqn:Ec; [exact IH | right; eauto].
Qed.

Lemma trimEnd_head (c : ascii) (s : string) :
  JS.isWhiteSpace c = false -> exists r, JS.trimEnd (String c s) = String c r.
Proof.
  intros Hc. simpl. destruct (JS.trimEnd s); [rewrite Hc|]; eauto.
Qed.

Lemma trim_idem (s : string) : JS.trim (JS.trim s) = JS.trim s.
Proof.
  unfold JS.trim. destruct (trimStart_head s) as [E | [c [r [E Hc]]]]; rewrite E.
  - reflexivity.
  - destruct (trimEnd_head c r Hc) as [r' Er]. rewrite Er. simpl JS.trimStart.
    rewrite Hc, <- Er. apply trimEnd_idem.
Qed.

End Trimming.

(** ** The schema holds in the collection *)

Section SchemaInvariant.
Import Mongoose.

(** A value that the validators of a path let through. *)
Lemma valid_title (v : option string) :
  validatePath Schema.title v = [] ->
  exists s, v = Some s /\ (3 <= String.length s <= 100)%nat.
Proof.
  destruct v as [s|]; [|discriminate]. intros H. exists s. split; [reflexivity|].
  apply (f_equal (fmap snd)) in H. rewrite validate_title in H.
  revert H. unfold titleError. nat_cases; discriminate.
Qed.

Lemma valid_content (v : option string) :
  validatePath Schema.content v = [] ->
  exists s, v = Some s /\ (10 <= String.length s)%nat.
Proof.
  destruct v as [s|]; [|discriminate]. intros H. exists s. split; [reflexivity|].
  apply (f_equal (fmap snd)) in H. rewrite validate_content in H.
  revert H. unfold contentError. nat_cases; discriminate.
Qed.

Lemma valid_author (v : option string) :
  validatePath Schema.author v = [] ->
  exists s, v = Some s /\ (2 <= String.length s <= 50)%nat.
Proof.
  destruct v as [s|]; [|discriminate]. intros H. exists s. split; [reflexivity|].
  apply (f_equal (fmap snd)) in H. rewrite validate_author in H.
  revert H. unfold authorError. nat_cases; discriminate.
Qed.

(** What a path gets from an object is trimmed. *)
Lemma castPath_trimmed (sch : Schema.SchemaString) (obj : gmap string JS.value) (s : string) :
  Schema.trim sch = true -> castPath sch obj = Some s -> JS.trim s = s.
Proof.
  unfold castPath, applySetters. intros ->.
  destruct (castString _) as [x|]; simpl; [|discriminate].
  intros [= <-]. apply trim_idem.
Qed.

(** A post that [Post.create] stores obeys the schema. *)
Lemma create_postOk (now : Z) (doc : gmap string JS.value) (st st' : Store) (p : Post) :
  Model.create now doc st = (Resolved p, st') ->
  postOk p /\ posts st' = posts st ++ [p] /\ _id p = nextId st
  /\ nextId st' = N.succ (nextId st) /\ createdAt p = now /\ updatedAt p = now.
Proof.
  unfold Model.create.
  destruct (validatePath Schema.title _ ++ _) as [|e es] eqn:E; [|by repeat case_match].
  apply app_eq_nil in E as [Et E]. apply app_eq_nil in E as [Ec Ea].
  destruct (valid_title _ Et) as [t [Ht Bt]].
  destruct (valid_content _ Ec) as [c [Hc Bc]].
  destruct (valid_author _ Ea) as [a [Ha Ba]].
  rewrite Ht, Hc, Ha. intros [= <- <-]. unfold postOk. simpl.
  repeat split; try reflexivity; try lia;
    eapply castPath_trimmed; try eassumption; reflexivity.
Qed.

(** The value of a field after a valid [$set]: the old one, or a new one
    that is trimmed and for which the validators of the path gave no
    error. *)
Lemma setField_cases (sch : Schema.SchemaString) (upd : gmap string JS.value)
    (old : string) :
  Schema.required sch <> None -> Schema.trim sch = true ->
  Model.validateUpdate sch (Model.updatePath sch upd) = [] ->
  Model.setField (Model.updatePath sch upd) old = old
  \/ exists s, Model.setField (Model.updatePath sch upd) old = s
       /\ JS.trim s = s /\ validatePath sch (Some s) = [].
Proof.
  intros Hreq Htrim. unfold Model.updatePath.
  destruct (upd !! Schema.path sch); [|by left]. simpl.
  destruct (castPath sch upd) as [s|] eqn:E.
  - intros H. right. exists s. split; [reflexivity|]. split; [|exact H].
    eapply castPath_trimmed; eassumption.
  - destruct (Schema.required sch) as [m|] eqn:Er; [|contradiction].
    rewrite (validate_null sch m Er). discriminate.
Qed.

Lemma replaceOne_Forall (P : Post -> Prop) (id : ObjectId) (p : Post) (l : list Post) :
  P p -> Forall P l -> Forall P (Model.replaceOne id p l).
Proof.
  intros Hp. induction 1 as [|q l Hq Hl IH]; simpl; [constructor|].
  destruct (N.eqb (_id q) id); constructor; assumption.
Qed.

Lemma deleteOne_Forall (P : Post -> Prop) (id : ObjectId) (l : list Post) :
  Forall P l -> Forall P (Model.deleteOne id l).
Proof.
  intros H. rewrite Forall_forall in H. apply Forall_forall. intros q Hq.
  apply H. eapply elem_of_sublist; [exact Hq | apply deleteOne_sublist].
Qed.

End SchemaInvariant.

Section Outcomes.
Import Mongoose.

Variable castObjectId : string -> option ObjectId.

(** How [Post.create] settles: a post is stored, or the validators
    refuse the document and the collection stays as it is. *)
Lemma create_cases (now : Z) (doc : gmap string JS.value) (st : Store) :
  (exists p st', Model.create now doc st = (Resolved p, st'))
  \/ (exists errors, errors <> [] /\ Model.create now doc st = (ValidationError errors, st)).
Proof.
  unfold Model.create.
  destruct (validatePath Schema.title _ ++ _) as [|e es] eqn:E.
  - apply app_eq_nil in E as [Et E]. apply app_eq_nil in E as [Ec Ea].
    destruct (valid_title _ Et) as [t [-> _]].
    destruct (valid_content _ Ec) as [c [-> _]].
    destruct (valid_author _ Ea) as [a [-> _]]. left. eauto.
  - right. exists (e :: es). split; [discriminate|]. by repeat case_match.
Qed.

(** The outcomes of [createPost]. *)
Lemma createPost_cases (now : Z) (body : gmap string JS.value) (st : Store) :
  (createPost now body st
     = respond 400
         (Failure "Please provide all required fields: title, content, and author") st []
   /\ (JS.truthy (body !! "title") && JS.truthy (body !! "content")
       && JS.truthy (body !! "author")) = false)
  \/ (exists doc errors, errors <> []
        /\ createPost now body st
           = respond 400 (ValidationFailure "Validation failed" errors) st [CallCreate doc])
  \/ (exists p st',
        Model.create now (threeFields (body !! "title") (body !! "content")
                            (body !! "author")) st = (Resolved p, st')
        /\ JS.truthy (body !! "title") = true /\ JS.truthy (body !! "content") = true
        /\ JS.truthy (body !! "author") = true
        /\ createPost now body st
           = respond 201 (PostData (Some "Post created successfully") p) st'
               [CallCreate (threeFields (body !! "title") (body !! "content")
                              (body !! "author"))]).
Proof.
  unfold createPost.
  destruct (JS.truthy (body !! "title")), (JS.truthy (body !! "content")),
    (JS.truthy (body !! "author")); simpl; try (left; split; reflexivity).
  right.
  change (setDefined "author" ?x (setDefined "content" ?y (setDefined "title" ?z ∅)))
    with (threeFields z y x).
  destruct (create_cases now (threeFields (body !! "title") (body !! "content")
                                (body !! "author")) st)
    as [[p [st' E]] | [errors [Hne E]]]; rewrite E.
  - right. exists p, st'. repeat split; reflexivity.
  - left. eexists. exists (snd <$> errors). split; [|reflexivity].
    destruct errors; [contradiction | discriminate].
Qed.

(** The outcomes of [findByIdAndUpdate] on the store. *)
Lemma findByIdAndUpdate_store (now : Z) (oid : ObjectId) (upd : gmap string JS.value)
    (st : Store) :
  (Model.findByIdAndUpdate now oid upd st).2 = st
  \/ exists p p',
       Model.findOne oid (posts st) = Some p
       /\ Model.findByIdAndUpdate now oid upd st
          = (Resolved (Some p'),
             {| posts := Model.replaceOne oid p' (posts st); nextId := nextId st |})
       /\ _id p' = _id p /\ createdAt p' = createdAt p /\ updatedAt p' = now
       /\ (postOk p -> postOk p').
Proof.
  unfold Model.findByIdAndUpdate.
  destruct (Model.validateUpdate Schema.author _ ++ _) as [|e es] eqn:E; [|by left].
  apply app_eq_nil in E as [Ea E]. apply app_eq_nil in E as [Ec Et].
  destruct (Model.findOne oid (posts st)) as [p|]; [|by left].
  right. eexists p, _. split; [reflexivity|]. split; [reflexivity|].
  simpl. do 3 (split; [reflexivity|]).
  unfold postOk. simpl. intros (T1 & T2 & C1 & C2 & A1 & A2).
  destruct (setField_cases Schema.title upd (title p) ltac:(discriminate) eq_refl Et)
    as [-> | [s [-> [Hs Hv]]]];
  destruct (setField_cases Schema.content upd (content p) ltac:(discriminate) eq_refl Ec)
    as [-> | [s' [-> [Hs' Hv']]]];
  destruct (setField_cases Schema.author upd (author p) ltac:(discriminate) eq_refl Ea)
    as [-> | [s'' [-> [Hs'' Hv'']]]];
  repeat match goal with
  | H : validatePath Schema.title (Some _) = [] |- _ =>
      apply valid_title in H as [? [[= <-] ?]]
  | H : validatePath Schema.content (Some _) = [] |- _ =>
      apply valid_content in H as [? [[= <-] ?]]
  | H : validatePath Schema.author (Some _) = [] |- _ =>
      apply valid_author in H as [? [[= <-] ?]]
  end; repeat split; try assumption; lia.
Qed.

End Outcomes.

Section StoreAfter.
Import Mongoose.

Variable castObjectId : string -> option ObjectId.

(** The collection after [updatePost] is the one it got, or the one
    that [findByIdAndUpdate] left. *)
Lemma updatePost_store (now : Z) (id : string) (body : gmap string JS.value) (st : Store) :
  store (updatePost castObjectId now id body st) = st
  \/ exists oid, castObjectId id = Some oid
       /\ store (updatePost castObjectId now id body st)
          = (Model.findByIdAndUpdate now oid (updateDataOf body) st).2.
Proof.
  destruct (castObjectId id) as [oid|] eqn:Hid.
  - rewrite (updatePost_cast castObjectId now id oid body st Hid).
    destruct (Nat.eqb _ 0); [by left|]. right. exists oid. split; [reflexivity|].
    destruct (Model.findByIdAndUpdate now oid (updateDataOf body) st) as [[[p|]| |] st'];
      reflexivity.
  - left. unfold updatePost. rewrite Hid. reflexivity.
Qed.

(** The collection after [deletePost] is the one it got without at most
    one post. *)
Lemma deletePost_store (id : string) (st : Store) :
  store (deletePost castObjectId id st) = st
  \/ exists oid, castObjectId id = Some oid
       /\ store (deletePost castObjectId id st)
          = {| posts := Model.deleteOne oid (posts st); nextId := nextId st |}.
Proof.
  unfold deletePost, Model.findByIdAndDelete.
  destruct (castObjectId id) as [oid|]; [|by left].
  destruct (Model.findOne oid (posts st)); [right; eauto | by left].
Qed.

End StoreAfter.

(** X1.  Every post in the collection obeys the schema, whatever the
    requests were: if title, content and author of all stored posts are
    trimmed and within their length bounds, they still are after a
    Create, an Update or a Delete with any body and any identifier. *)
Theorem schema_kept (castObjectId : string -> option ObjectId) (now : Z) (id : string)
    (body : gmap string JS.value) (st : Store) :
  collectionOk st ->
  collectionOk (store (createPost now body st))
  /\ collectionOk (store (updatePost castObjectId now id body st))
  /\ collectionOk (store (deletePost castObjectId id st)).
Proof.
  unfold collectionOk. intros Hok. split; [|split].
  - destruct (createPost_cases now body st)
      as [[-> _] | [(doc & errors & _ & ->) | (p & st' & Hc & _ & _ & _ & ->)]];
      try exact Hok.
    apply create_postOk in Hc as (Hp & Hposts & _). simpl. rewrite Hposts.
    apply Forall_app. split; [exact Hok | by constructor].
  - destruct (updatePost_store castObjectId now id body st) as [-> | (oid & _ & ->)];
      [exact Hok|].
    destruct (findByIdAndUpdate_store now oid (updateDataOf body) st)
      as [-> | (p & p' & Hp & -> & _ & _ & _ & Hpost)]; [exact Hok|].
    simpl. apply replaceOne_Forall; [|exact Hok].
    apply Hpost. rewrite Forall_forall in Hok. apply Hok.
    by destruct (findOne_Some _ _ _ Hp).
  - destruct (deletePost_store castObjectId id st) as [-> | (oid & _ & ->)]; [exact Hok|].
    simpl. by apply deleteOne_Forall.
Qed.

Lemma schema_kept_witness :
  collectionOk (store (createPost 2000 Sample.helloBody Sample.oneStore))
  /\ collectionOk (store (updatePost hexObjectId 2000 Sample.helloId Sample.helloBody
                            Sample.oneStore))
  /\ collectionOk (store (deletePost hexObjectId Sample.helloId Sample.oneStore)).
Proof.
  apply (schema_kept hexObjectId 2000 Sample.helloId Sample.helloBody Sample.oneStore).
  constructor; [|constructor].
  unfold postOk; simpl. repeat split; try reflexivity; lia.
Defined.

(** X2.  No post is updated before it is created: if createdAt <=
    updatedAt holds for every stored post and the clock is not behind
    the creation of any of them, it still holds after a Create, an
    Update or a Delete. *)
Theorem timestamps_kept (castObjectId : string -> option ObjectId) (now : Z) (id : string)
    (body : gmap string JS.value) (st : Store) :
  timestampsOk st ->
  Forall (fun p => createdAt p <= now) (posts st) ->
  timestampsOk (store (createPost now body st))
  /\ timestampsOk (store (updatePost castObjectId now id body st))
  /\ timestampsOk (store (deletePost castObjectId id st)).
Proof.
  unfold timestampsOk. intros Hok Hnow. split; [|split].
  - destruct (createPost_cases now body st)
      as [[-> _] | [(doc & errors & _ & ->) | (p & st' & Hc & _ & _ & _ & ->)]];
      try exact Hok.
    apply create_postOk in Hc as (_ & Hposts & _ & _ & Hc & Hu). simpl. rewrite Hposts.
    apply Forall_app. split; [exact Hok|]. constructor; [lia | constructor].
  - destruct (updatePost_store castObjectId now id body st) as [-> | (oid & _ & ->)];
      [exact Hok|].
    destruct (findByIdAndUpdate_store now oid (updateDataOf body) st)
      as [-> | (p & p' & Hp & -> & _ & Hc & Hu & _)]; [exact Hok|].
    simpl. apply replaceOne_Forall; [|exact Hok].
    rewrite Hc, Hu. rewrite Forall_forall in Hnow. apply Hnow.
    by destruct (findOne_Some _ _ _ Hp).
  - destruct (deletePost_store castObjectId id st) as [-> | (oid & _ & ->)]; [exact Hok|].
    simpl. by apply deleteOne_Forall.
Qed.

Lemma timestamps_kept_witness :
  timestampsOk (store (createPost 2000 Sample.helloBody Sample.oneStore))
  /\ timestampsOk (store (updatePost hexObjectId 2000 Sample.helloId Sample.helloBody
                            Sample.oneStore))
  /\ timestampsOk (store (deletePost hexObjectId Sample.helloId Sample.oneStore)).
Proof.
  apply (timestamps_kept hexObjectId 2000 Sample.helloId Sample.helloBody Sample.oneStore).
  - constructor; [simpl; lia | constructor].
  - constructor; [simpl; lia | constructor].
Defined.

(** X3.  The identifiers in the collection stay pairwise distinct, and
    the generator never goes back: after a Create, an Update or a Delete
    the invariant of the store holds again and the next identifier is
    not smaller than before. *)
Theorem identifiers_kept (castObjectId : string -> option ObjectId) (now : Z) (id : string)
    (body : gmap string JS.value) (st : Store) :
  storeOk st ->
  (storeOk (store (createPost now body st))
   /\ (nextId st <= nextId (store (createPost now body st)))%N)
  /\ (storeOk (store (updatePost castObjectId now id body st))
      /\ nextId (store (updatePost castObjectId now id body st)) = nextId st)
  /\ (storeOk (store (deletePost castObjectId id st))
      /\ nextId (store (deletePost castObjectId id st)) = nextId st).
Proof.
  intros Hok. split; [|split]; split.
  - by apply storeOk_createPost.
  - destruct (createPost_cases now body st)
      as [[-> _] | [(doc & errors & _ & ->) | (p & st' & Hc & _ & _ & _ & ->)]];
      simpl; try lia.
    apply create_postOk in Hc as (_ & _ & _ & -> & _). lia.
  - by apply storeOk_updatePost.
  - destruct (updatePost_store castObjectId now id body st) as [-> | (oid & _ & ->)];
      [reflexivity|].
    destruct (findByIdAndUpdate_store now oid (updateDataOf body) st)
      as [-> | (p & p' & _ & -> & _)]; reflexivity.
  - by apply storeOk_deletePost.
  - destruct (deletePost_store castObjectId id st) as [-> | (oid & _ & ->)]; reflexivity.
Qed.

Lemma identifiers_kept_witness :
  (storeOk (store (createPost 2000 Sample.helloBody Sample.oneStore))
   /\ (nextId Sample.oneStore
       <= nextId (store (createPost 2000 Sample.helloBody Sample.oneStore)))%N)
  /\ (storeOk (store (updatePost hexObjectId 2000 Sample.helloId Sample.helloBody
                        Sample.oneStore))
      /\ nextId (store (updatePost hexObjectId 2000 Sample.helloId Sample.helloBody
                          Sample.oneStore)) = nextId Sample.oneStore)
  /\ (storeOk (store (deletePost hexObjectId Sample.helloId Sample.oneStore))
      /\ nextId (store (deletePost hexObjectId Sample.helloId Sample.oneStore))
         = nextId Sample.oneStore).
Proof.
  apply (identifiers_kept hexObjectId 2000 Sample.helloId Sample.helloBody Sample.oneStore).
  split; simpl; repeat constructor. inversion 1.
Defined.

(** ** Create, then read; delete *)

Section ReadBack.
Import Mongoose.

Lemma findOne_app_new (l : list Post) (p : Post) :
  _id p ∉ _id <$> l -> Model.findOne (_id p) (l ++ [p]) = Some p.
Proof.
  induction l as [|q l IH]; simpl; intros H.
  - by rewrite N.eqb_refl.
  - apply not_elem_of_cons in H as [Hq Hl].
    destruct (N.eqb_spec (_id q) (_id p)); [congruence | by apply IH].
Qed.

Lemma findOne_deleteOne_ne (id id' : ObjectId) (l : list Post) :
  id' <> id -> Model.findOne id' (Model.deleteOne id l) = Model.findOne id' l.
Proof.
  intros Hne. induction l as [|q l IH]; simpl; [reflexivity|].
  destruct (N.eqb_spec (_id q) id) as [E|NE]; simpl.
  - destruct (N.eqb_spec (_id q) id'); [congruence | reflexivity].
  - destruct (N.eqb_spec (_id q) id'); [reflexivity | exact IH].
Qed.

Lemma deleteOne_length (id : ObjectId) (l : list Post) (p : Post) :
  Model.findOne id l = Some p -> S (length (Model.deleteOne id l)) = length l.
Proof.
  induction l as [|q l IH]; simpl; [discriminate|].
  destruct (N.eqb (_id q) id); [reflexivity|]. intros H. simpl. by rewrite IH.
Qed.

(** The validators let the value of a path through exactly when the
    property it comes from is within the bounds. *)
Lemma withinBounds_valid (sch : Schema.SchemaString) (lo : nat) (hi : option nat)
    (obj : gmap string JS.value) (s : string) :
  Schema.trim sch = true ->
  castPath sch obj = Some s ->
  outOfBounds lo hi (String.length s) = false ->
  withinBounds lo hi (obj !! Schema.path sch).
Proof.
  unfold castPath, applySetters, withinBounds. intros ->.
  destruct (obj !! Schema.path sch) as [x|]; [|discriminate].
  destruct (castString (Some x)) as [y|]; simpl; [|discriminate].
  intros [= <-]. exact id.
Qed.

(** The validators of a path on a document, from the property of the
    body that the document carries. *)
Lemma validate_castPath (sch : Schema.SchemaString) (obj : gmap string JS.value) :
  is_Some (obj !! Schema.path sch) ->
  validatePath sch (castPath sch obj) = pathErrors sch (obj !! Schema.path sch).
Proof. intros [x Hx]. unfold castPath, pathErrors. rewrite Hx. reflexivity. Qed.

Lemma truthy_is_Some (v : option JS.value) : JS.truthy v = true -> is_Some v.
Proof. destruct v; [eauto | discriminate]. Qed.

(** [Post.create] stores the document of an acceptable body. *)
Lemma create_acceptable (now : Z) (body : gmap string JS.value) (st : Store) :
  acceptableCreate body ->
  exists p st',
    Model.create now (threeFields (body !! "title") (body !! "content") (body !! "author"))
      st = (Resolved p, st').
Proof.
  intros (Tt & Tc & Ta & Bt & Bc & Ba).
  destruct (create_cases now (threeFields (body !! "title") (body !! "content")
                                (body !! "author")) st)
    as [Hok | (errors & Hne & E)]; [exact Hok|]. exfalso.
  unfold Model.create in E.
  rewrite !validate_castPath in E.
  - change (Schema.path Schema.title) with "title" in E.
    change (Schema.path Schema.content) with "content" in E.
    change (Schema.path Schema.author) with "author" in E.
    rewrite object_title, object_content, object_author in E.
    rewrite withinBounds_title, withinBounds_content, withinBounds_author in E
      by assumption.
    simpl in E. repeat case_match; simplify_eq.
  - change (Schema.path Schema.author) with "author". rewrite object_author.
    by apply truthy_is_Some.
  - change (Schema.path Schema.content) with "content". rewrite object_content.
    by apply truthy_is_Some.
  - change (Schema.path Schema.title) with "title". rewrite object_title.
    by apply truthy_is_Some.
Qed.

End ReadBack.

(** X4.  Create accepts exactly the bodies whose title, content and
    author are truthy and, cast to strings and trimmed, within their
    length bounds: on these it answers 201, on every other body 400, and
    then the collection and the identifier generator stay as they
    were. *)
Theorem createPost_accepts (now : Z) (body : gmap string JS.value) (st : Store) :
  (status (response (createPost now body st)) = 201 <-> acceptableCreate body)
  /\ (status (response (createPost now body st)) = 201
      \/ status (response (createPost now body st)) = 400
         /\ store (createPost now body st) = st).
Proof.
  destruct (createPost_cases now body st)
    as [[E Hf] | [(doc & errors & Hne & E) | (p & st' & Hc & Tt & Tc & Ta & E)]].
  - rewrite E. simpl. split; [|by right]. split; [discriminate|].
    intros (Ht & Hc & Ha & _). rewrite Ht, Hc, Ha in Hf. discriminate.
  - rewrite E. simpl. split; [|by right]. split; [discriminate|].
    intros Hacc. exfalso.
    destruct (create_acceptable now body st Hacc) as (q & st' & Hq).
    destruct Hacc as (Tt & Tc & Ta & _).
    revert E. unfold createPost. rewrite Tt, Tc, Ta. simpl.
    change (setDefined "author" ?x (setDefined "content" ?y (setDefined "title" ?z ∅)))
      with (threeFields z y x).
    rewrite Hq. discriminate.
  - rewrite E. simpl. split; [|by left]. split; [|reflexivity]. intros _.
    repeat split; try assumption.
    all: revert Hc; unfold Model.create;
      destruct (Mongoose.validatePath Schema.title _ ++ _) as [|e es] eqn:Ev;
      [|by repeat case_match]; intros _;
      apply app_eq_nil in Ev as [Et Ev]; apply app_eq_nil in Ev as [Ec Ea].
    + destruct (valid_title _ Et) as [t [Ht Bt]].
      rewrite <- (object_title (body !! "title") (body !! "content") (body !! "author")).
      apply (withinBounds_valid Schema.title 3 (Some 100%nat) _ t eq_refl Ht).
      unfold outOfBounds. nat_cases.
    + destruct (valid_content _ Ec) as [c [Hc Bc]].
      rewrite <- (object_content (body !! "title") (body !! "content") (body !! "author")).
      apply (withinBounds_valid Schema.content 10 None _ c eq_refl Hc).
      unfold outOfBounds. nat_cases.
    + destruct (valid_author _ Ea) as [a [Ha Ba]].
      rewrite <- (object_author (body !! "title") (body !! "content") (body !! "author")).
      apply (withinBounds_valid Schema.author 2 (Some 50%nat) _ a eq_refl Ha).
      unfold outOfBounds. nat_cases.
Qed.

(** X5.  Round trip: when a Create has answered 201 with a post, a
    GetById with an identifier string that denotes the identifier of
    that post answers 200 with the same post, and leaves the collection
    as the Create left it. *)
Theorem create_then_get (castObjectId : string -> option ObjectId) (now : Z)
    (body : gmap string JS.value) (st : Store) (p : Post) (id : string) :
  storeOk st ->
  response (createPost now body st)
    = {| status := 201; json := PostData (Some "Post created successfully") p |} ->
  castObjectId id = Some (_id p) ->
  getPostById castObjectId id (store (createPost now body st))
    = respond 200 (PostData None p) (store (createPost now body st)) [CallFindById (_id p)].
Proof.
  intros [_ Hlt] Hres Hid.
  destruct (createPost_cases now body st)
    as [[E _] | [(doc & errors & _ & E) | (q & st' & Hc & _ & _ & _ & E)]];
    rewrite E in Hres |- *; try discriminate Hres.
  injection Hres as <-. simpl.
  apply create_postOk in Hc as (_ & Hposts & Hq & _).
  unfold getPostById, Model.findById. rewrite Hid, Hposts, findOne_app_new; [reflexivity|].
  rewrite Hq. intros Hin. apply list_elem_of_fmap in Hin as (r & Hr & Hin).
  rewrite Forall_forall in Hlt. specialize (Hlt r Hin). lia.
Qed.

Lemma create_then_get_witness :
  getPostById hexObjectId Sample.helloId (store (createPost 1000 Sample.helloBody emptyStore))
    = respond 200 (PostData None Sample.helloPost)
        (store (createPost 1000 Sample.helloBody emptyStore)) [CallFindById 0%N].
Proof.
  apply (create_then_get hexObjectId 1000 Sample.helloBody emptyStore Sample.helloPost
           Sample.helloId).
  - split; constructor.
  - reflexivity.
  - reflexivity.
Defined.

(** X6.  A Delete of a post that exists answers 200 with an empty
    payload after one call on the store; the post is gone, every other
    post is still found as before and in the same order, the collection
    has one post less, and a second Delete of the same identifier
    answers 404. *)
Theorem delete_existing (castObjectId : string -> option ObjectId) (id : string)
    (oid : ObjectId) (st : Store) (p : Post) :
  castObjectId id = Some oid ->
  storeOk st ->
  Model.findById oid st = Some p ->
  let st' := store (deletePost castObjectId id st) in
  deletePost castObjectId id st
    = respond 200 (EmptyData "Post deleted successfully")
        {| posts := Model.deleteOne oid (posts st); nextId := nextId st |}
        [CallFindByIdAndDelete oid]
  /\ Model.findById oid st' = None
  /\ (forall oid', oid' <> oid -> Model.findById oid' st' = Model.findById oid' st)
  /\ sublist (posts st') (posts st)
  /\ S (length (posts st')) = length (posts st)
  /\ deletePost castObjectId id st'
     = respond 404 (Failure "Post not found") st' [CallFindByIdAndDelete oid].
Proof.
  intros Hid [Hnd _] Hp st'. unfold Model.findById in *.
  assert (E : deletePost castObjectId id st
              = respond 200 (EmptyData "Post deleted successfully")
                  {| posts := Model.deleteOne oid (posts st); nextId := nextId st |}
                  [CallFindByIdAndDelete oid]).
  { unfold deletePost, Model.findByIdAndDelete. rewrite Hid, Hp. reflexivity. }
  assert (Hgone : Model.findOne oid (posts st') = None).
  { subst st'. rewrite E. simpl. apply findOne_None, deleteOne_ids, Hnd. }
  split; [exact E|]. split; [exact Hgone|]. subst st'. rewrite E in Hgone |- *. simpl in *.
  split; [|split; [|split]].
  - intros oid' Hne. by apply findOne_deleteOne_ne.
  - apply deleteOne_sublist.
  - eapply deleteOne_length, Hp.
  - unfold deletePost, Model.findByIdAndDelete. rewrite Hid. simpl. rewrite Hgone.
    reflexivity.
Qed.

Lemma delete_existing_witness :
  let st' := store (deletePost hexObjectId "000000000000000000000001" Sample.threeStore) in
  deletePost hexObjectId "000000000000000000000001" Sample.threeStore
    = respond 200 (EmptyData "Post deleted successfully")
        {| posts := Model.deleteOne 1%N (posts Sample.threeStore);
           nextId := nextId Sample.threeStore |}
        [CallFindByIdAndDelete 1%N]
  /\ Model.findById 1%N st' = None
  /\ (forall oid', oid' <> 1%N ->
        Model.findById oid' st' = Model.findById oid' Sample.threeStore)
  /\ sublist (posts st') (posts Sample.threeStore)
  /\ S (length (posts st')) = length (posts Sample.threeStore)
  /\ deletePost hexObjectId "000000000000000000000001" st'
     = respond 404 (Failure "Post not found") st' [CallFindByIdAndDelete 1%N].
Proof.
  apply (delete_existing hexObjectId "000000000000000000000001" 1%N Sample.threeStore
           Sample.postB).
  - reflexivity.
  - split; simpl.
    + repeat constructor; rewrite ?elem_of_cons, elem_of_nil; intuition discriminate.
    + repeat constructor.
  - reflexivity.
Defined.

(** ** List: what a page holds *)

Section Pages.

(** Every answer of List: a page cut from the sorted matching posts, or
    500 after the store has refused a negative skip. *)
Lemma getAllPosts_cases (query : gmap string string) (st : Store) (o : Outcome) :
  getAllPosts query st = Some o ->
  exists f, Model.matches (buildQuery query) = Some f
    /\ ((queryPage query - 1) * queryLimit query < 0
        /\ o = respond 500 (ServerFailure "Server error while fetching posts") st
                 [CallFind (buildQuery query) ((queryPage query - 1) * queryLimit query)
                    (queryLimit query)]
        \/ 0 <= (queryPage query - 1) * queryLimit query
           /\ getAllPosts query st = Some o
           /\ let found := List.filter f (posts st) in
              let data := take (Z.to_nat (Z.abs (queryLimit query)))
                            (drop (Z.to_nat ((queryPage query - 1) * queryLimit query))
                               (Model.sortDesc found)) in
              o = respond 200
                    (PageData (Z.of_nat (length data)) (Z.of_nat (length found))
                       (JS.jsonNumber (queryPage query))
                       (JS.ceilDiv (Z.of_nat (length found)) (queryLimit query)) data)
                    st
                    [CallFind (buildQuery query)
                       ((queryPage query - 1) * queryLimit query) (queryLimit query);
                     CallCountDocuments (buildQuery query)]).
Proof.
  intros Ho. destruct (Model.matches (buildQuery query)) as [f|] eqn:Hf.
  - exists f. split; [reflexivity|].
    destruct (Z.ltb_spec ((queryPage query - 1) * queryLimit query) 0) as [Hneg|Hpos].
    + left. split; [exact Hneg|]. revert Ho.
      unfold getAllPosts, Model.find. rewrite Hf. simpl. unfold Model.paginate.
      destruct (Z.ltb_spec ((queryPage query - 1) * queryLimit query) 0); [|lia].
      by intros [= <-].
    + right. split; [exact Hpos|]. split; [exact Ho|].
      rewrite (getAllPosts_page query st f Hf Hpos (queryLimit_nonzero query)) in Ho.
      by injection Ho as <-.
  - revert Ho. unfold getAllPosts, Model.find. rewrite Hf. discriminate.
Qed.

Lemma descending_app (l1 l2 : list Post) :
  descending (l1 ++ l2) -> descending l1 /\ descending l2.
Proof.
  unfold descending. induction l1 as [|p l1 IH]; simpl; intros H.
  - split; [constructor | exact H].
  - apply StronglySorted_inv in H as [Hs Hp]. destruct (IH Hs) as [H1 H2].
    split; [|exact H2]. constructor; [exact H1|].
    by apply Forall_app in Hp as [Hp _].
Qed.

End Pages.

(** X7.  What a page of List holds: the collection is not changed;
    count is the number of posts in the page, at most the limit and at
    most total; total is at most the size of the collection; the posts
    of the page are posts of the collection, newest first; page is the
    number that the page parameter is read as, null when that is
    infinite; and a page that starts at or after the last matching post
    is empty. *)
Theorem page_metrics (query : gmap string string) (st : Store) (o : Outcome)
    (count total pages : Z) (page : option Z) (data : list Post) :
  getAllPosts query st = Some o ->
  json (response o) = PageData count total page pages data ->
  store o = st
  /\ status (response o) = 200
  /\ count = Z.of_nat (length data)
  /\ count <= Z.abs (queryLimit query)
  /\ count <= total <= Z.of_nat (length (posts st))
  /\ (forall p, p ∈ data -> p ∈ posts st)
  /\ descending data
  /\ page = JS.jsonNumber (queryPage query)
  /\ (total <= (queryPage query - 1) * queryLimit query -> data = []).
Proof.
  intros Ho Hj.
  destruct (getAllPosts_cases query st o Ho) as (f & Hf & [[_ ->] | (Hskip & _ & ->)]);
    [discriminate Hj|].
  simpl in Hj. injection Hj as <- <- <- <- <-.
  set (found := List.filter f (posts st)).
  set (all := Model.sortDesc found).
  set (k := Z.to_nat ((queryPage query - 1) * queryLimit query)).
  set (n := Z.to_nat (Z.abs (queryLimit query))).
  assert (Hall : length all = length found) by apply Permutation_length, sortDesc_perm.
  assert (Hlen : (length (take n (drop k all)) <= length all)%nat).
  { rewrite length_take, length_drop. lia. }
  split; [reflexivity|]. split; [reflexivity|]. split; [reflexivity|].
  split; [rewrite length_take; subst n; lia|].
  split; [split; [lia | subst found; pose proof (filter_length_le f (posts st)); lia]|].
  split; [|split; [|split; [reflexivity|]]].
  - intros p Hp.
    eapply elem_of_sublist in Hp; [|apply sublist_take].
    eapply elem_of_sublist in Hp; [|apply sublist_drop].
    assert (Hin : p ∈ found) by (by rewrite <- (sortDesc_perm found)).
    apply list_elem_of_In, filter_In in Hin as [Hin _]. by apply list_elem_of_In.
  - pose proof (sortDesc_descending found) as Hs. fold all in Hs.
    rewrite <- (take_drop k all) in Hs. apply descending_app in Hs as [_ Hs].
    rewrite <- (take_drop n (drop k all)) in Hs. by apply descending_app in Hs as [Hs _].
  - intros Htot. rewrite (drop_ge all k); [by destruct n|]. subst k. lia.
Qed.

Lemma page_metrics_witness :
  store (respond 200 (PageData 1 3 (Some 2) 2 [Sample.postA]) Sample.threeStore
           [CallFind Sample.noFilter 2 2; CallCountDocuments Sample.noFilter])
    = Sample.threeStore
  /\ 200 = 200
  /\ 1 = Z.of_nat (length [Sample.postA])
  /\ 1 <= Z.abs (queryLimit (withPage Sample.limitTwoQuery 2))
  /\ 1 <= 3 <= Z.of_nat (length (posts Sample.threeStore))
  /\ (forall p, p ∈ [Sample.postA] -> p ∈ posts Sample.threeStore)
  /\ descending [Sample.postA]
  /\ Some 2 = JS.jsonNumber (queryPage (withPage Sample.limitTwoQuery 2))
  /\ (3 <= (queryPage (withPage Sample.limitTwoQuery 2) - 1)
            * queryLimit (withPage Sample.limitTwoQuery 2) -> [Sample.postA] = []).
Proof.
  apply (page_metrics (withPage Sample.limitTwoQuery 2) Sample.threeStore
           (respond 200 (PageData 1 3 (Some 2) 2 [Sample.postA]) Sample.threeStore
              [CallFind Sample.noFilter 2 2; CallCountDocuments Sample.noFilter])
           1 3 2 (Some 2) [Sample.postA]); reflexivity.
Defined.

(** The page 2^53 + 1 is answered as page 2^53, the double nearest to
    it, and a page beyond the doubles as null. *)
Example rounded_page_echo :
  (exists cs,
     getAllPosts Sample.roundedPageQuery Sample.threeStore
       = Some (respond 200 (PageData 0 3 (Some 9007199254740992) 1 []) Sample.threeStore cs))
  /\ (exists cs,
        getAllPosts (withPage ∅ (10 ^ 309)) Sample.threeStore
          = Some (respond 200 (PageData 0 3 None 1 []) Sample.threeStore cs)).
Proof.
  split.
  - destruct (getAllPosts_beyond Sample.roundedPageQuery Sample.threeStore (fun _ => true))
      as [cs H]; [reflexivity | vm_compute; discriminate |].
    exists cs. rewrite H. reflexivity.
  - destruct (getAllPosts_beyond (withPage ∅ (10 ^ 309)) Sample.threeStore (fun _ => true))
      as [cs H]; [reflexivity | vm_compute; discriminate |].
    exists cs. rewrite H. reflexivity.
Qed.

(** ** The newest post comes first *)

Section Newest.

Lemma sortDesc_newest (l : list Post) (p : Post) :
  Forall (fun q => createdAt q < createdAt p) l ->
  Model.sortDesc (l ++ [p]) = p :: Model.sortDesc l.
Proof.
  induction 1 as [|q l Hq Hl IH]; simpl; [reflexivity|].
  fold (Model.sortDesc (l ++ [p])). fold (Model.sortDesc l). rewrite IH. simpl.
  destruct (Z.leb_spec (createdAt p) (createdAt q)); [lia | reflexivity].
Qed.

Lemma filter_Forall (P : Post -> Prop) (f : Post -> bool) (l : list Post) :
  Forall P l -> Forall P (List.filter f l).
Proof.
  induction 1 as [|q l Hq Hl IH]; simpl; [constructor|].
  destruct (f q); [by constructor | exact IH].
Qed.

End Newest.

(** X8.  A post that has just been created, at a time later than the
    creation of every other post, is the first post of page 1 of every
    List whose filter it passes. *)
Theorem created_post_listed_first (now : Z) (body : gmap string JS.value) (st : Store)
    (p : Post) (query : gmap string string) (f : Post -> bool) :
  response (createPost now body st)
    = {| status := 201; json := PostData (Some "Post created successfully") p |} ->
  Forall (fun q => createdAt q < now) (posts st) ->
  Model.matches (buildQuery query) = Some f ->
  f p = true ->
  queryPage query = 1 ->
  exists rest,
    pageData (getAllPosts query (store (createPost now body st))) = p :: rest.
Proof.
  intros Hres Hnew Hf Hp Hpage.
  destruct (createPost_cases now body st)
    as [[E _] | [(doc & errors & _ & E) | (q & st' & Hc & _ & _ & _ & E)]];
    rewrite E in Hres |- *; try discriminate Hres.
  injection Hres as <-. simpl.
  apply create_postOk in Hc as (_ & Hposts & _ & _ & Hcreated & _).
  rewrite (getAllPosts_page query st' f Hf); rewrite ?Hpage;
    [| lia | apply queryLimit_nonzero].
  simpl. rewrite Hposts, List.filter_app. simpl. rewrite Hp, sortDesc_newest.
  - pose proof (queryLimit_nonzero query).
    destruct (Z.to_nat (Z.abs (queryLimit query))) eqn:En; [lia|]. simpl. eauto.
  - apply filter_Forall. rewrite Hcreated. exact Hnew.
Qed.

Lemma created_post_listed_first_witness :
  exists rest,
    pageData (getAllPosts ∅ (store (createPost 4000 Sample.helloBody Sample.threeStore)))
      = {| _id := 3%N; title := "Hello"; content := "0123456789"; author := "Al";
           createdAt := 4000; updatedAt := 4000 |} :: rest.
Proof.
  apply (created_post_listed_first 4000 Sample.helloBody Sample.threeStore _ ∅
           (fun _ => true)); try reflexivity.
  repeat constructor.
Defined.

(** ** Repeating an update *)

Section Repeat.
Import Mongoose.

Lemma replaceOne_replaceOne (id : ObjectId) (p q : Post) (l : list Post) :
  _id p = id ->
  Model.replaceOne id q (Model.replaceOne id p l) = Model.replaceOne id q l.
Proof.
  intros Hp. induction l as [|r l IH]; simpl; [reflexivity|].
  destruct (N.eqb_spec (_id r) id) as [E|NE]; simpl.
  - rewrite Hp, N.eqb_refl. reflexivity.
  - destruct (N.eqb_spec (_id r) id); [contradiction|]. by rewrite IH.
Qed.

Lemma setField_setField (u : option (option string)) (old : string) :
  Model.setField u (Model.setField u old) = Model.setField u old.
Proof. by destruct u as [[s|]|]. Qed.

(** A second [findByIdAndUpdate] with the same update object makes the
    first one forgotten. *)
Lemma findByIdAndUpdate_twice (now1 now2 : Z) (oid : ObjectId)
    (upd : gmap string JS.value) (st : Store) :
  Model.findByIdAndUpdate now2 oid upd (Model.findByIdAndUpdate now1 oid upd st).2
    = Model.findByIdAndUpdate now2 oid upd st.
Proof.
  unfold Model.findByIdAndUpdate.
  destruct (Model.validateUpdate Schema.author _ ++ _) as [|e es]; [|reflexivity].
  destruct (Model.findOne oid (posts st)) as [p|] eqn:Hp; simpl; [|by rewrite Hp].
  destruct (findOne_Some _ _ _ Hp) as [Hin Hid].
  rewrite findOne_replaceOne; [|exact Hid|].
  - simpl. rewrite !setField_setField, replaceOne_replaceOne by exact Hid. reflexivity.
  - rewrite <- Hid. apply list_elem_of_fmap. eauto.
Qed.

End Repeat.

(** X9.  Update absorbs its own repetition: an Update followed by an
    Update with the same identifier and body has, call for call, the
    outcome and the collection that the second Update alone would have
    had; done twice at the same time, an Update answers twice the same
    and changes the collection as it does once. *)
Theorem update_absorbed (castObjectId : string -> option ObjectId) (now1 now2 : Z)
    (id : string) (body : gmap string JS.value) (st : Store) :
  updatePost castObjectId now2 id body (store (updatePost castObjectId now1 id body st))
    = updatePost castObjectId now2 id body st.
Proof.
  destruct (castObjectId id) as [oid|] eqn:Hid.
  - rewrite (updatePost_cast castObjectId now1 id oid body st Hid).
    rewrite !(updatePost_cast castObjectId now2 id oid body _ Hid).
    destruct (Nat.eqb (size (updateDataOf body)) 0); [reflexivity|].
    assert (E : store
                  match Model.findByIdAndUpdate now1 oid (updateDataOf body) st with
                  | (Mongoose.Resolved None, st') =>
                      respond 404 (Failure "Post not found") st'
                        [CallFindByIdAndUpdate oid (updateDataOf body)]
                  | (Mongoose.Resolved (Some post), st') =>
                      respond 200 (PostData (Some "Post updated successfully") post) st'
                        [CallFindByIdAndUpdate oid (updateDataOf body)]
                  | (Mongoose.ValidationError errors, st') =>
                      respond 400 (ValidationFailure "Validation failed" (snd <$> errors))
                        st' [CallFindByIdAndUpdate oid (updateDataOf body)]
                  | (Mongoose.MongoError _, st') =>
                      respond 500 (ServerFailure "Server error while updating post") st'
                        [CallFindByIdAndUpdate oid (updateDataOf body)]
                  end
                = (Model.findByIdAndUpdate now1 oid (updateDataOf body) st).2).
    { destruct (Model.findByIdAndUpdate now1 oid (updateDataOf body) st)
        as [[[p|]| |] st']; reflexivity. }
    rewrite E, findByIdAndUpdate_twice. reflexivity.
  - unfold updatePost. rewrite Hid. reflexivity.
Qed.

Example update_twice_example :
  updatePost hexObjectId 2000 Sample.helloId Sample.retitleBody
    (store (updatePost hexObjectId 2000 Sample.helloId Sample.retitleBody Sample.oneStore))
  = updatePost hexObjectId 2000 Sample.helloId Sample.retitleBody Sample.oneStore.
Proof. reflexivity. Qed.

(** ** Pagination parameters with text after the number *)

Section Trailing.

Lemma leadingDigits_append (d : Decimal.uint) (c : ascii) (rest : string) :
  isDigit c = false ->
  JS.leadingDigits (String.append (NilEmpty.string_of_uint d) (String c rest)) = d.
Proof.
  intros Hc. induction d; simpl; try congruence.
  by apply leadingDigits_nondigit.
Qed.

Lemma parseIntDigits_append (neg : bool) (p : positive) (c : ascii) (rest : string) :
  isDigit c = false ->
  JS.parseIntDigits neg
    (String.append (NilEmpty.string_of_uint (Pos.to_uint p)) (String c rest))
  = Some (JS.toDouble (if neg then Z.neg p else Z.pos p)).
Proof.
  intros Hc. unfold JS.parseIntDigits. rewrite leadingDigits_append by exact Hc.
  pose proof (DecimalPos.Unsigned.to_uint_nonnil p) as Hnn.
  pose proof (DecimalPos.Unsigned.of_to p) as Hof.
  unfold N.of_uint. destruct (Pos.to_uint p); try congruence; rewrite Hof;
    destruct neg; reflexivity.
Qed.

Lemma parseInt10_append (n : Z) (c : ascii) (rest : string) :
  n <> 0 -> isDigit c = false ->
  JS.parseInt10 (String.append (JS.decimal n) (String c rest)) = Some (JS.toDouble n).
Proof.
  intros Hn Hc. destruct n as [|p|p]; [contradiction| |].
  - pose proof (parseIntDigits_append false p c rest Hc) as H.
    pose proof (DecimalPos.Unsigned.to_uint_nonnil p) as Hnn.
    unfold JS.decimal; simpl.
    destruct (Pos.to_uint p); try congruence; exact H.
  - pose proof (parseIntDigits_append true p c rest Hc) as H.
    pose proof (DecimalPos.Unsigned.to_uint_nonnil p) as Hnn.
    unfold JS.decimal, JS.parseInt10; simpl.
    destruct (Pos.to_uint p); try congruence; exact H.
Qed.

End Trailing.

(** X10.  A page or limit parameter that is the decimal numeral of an
    integer [n] other than 0 followed by any text that begins with a
    non-digit is read as the double nearest to [n], which is [n] itself
    below 2^53 in absolute value: what follows the digits is ignored,
    and a minus sign is kept, so that the page or limit can be
    negative. *)
Theorem pagination_trailing_text (query : gmap string string) (n : Z) (c : ascii)
    (rest : string) :
  n <> 0 ->
  isDigit c = false ->
  let v := String.append (JS.decimal n) (String c rest) in
  queryPage (<["page" := v]> query) = JS.toDouble n
  /\ queryLimit (<["limit" := v]> query) = JS.toDouble n
  /\ (Z.abs n < 2 ^ 53 -> JS.toDouble n = n).
Proof.
  intros Hn Hc v. unfold queryPage, queryLimit. rewrite !lookup_insert_eq. simpl.
  subst v. rewrite parseInt10_append by assumption. simpl.
  pose proof (toDouble_nonzero n Hn) as Hd.
  destruct (Z.eqb_spec (JS.toDouble n) 0); [contradiction|].
  split; [reflexivity|]. split; [reflexivity|]. apply toDouble_safe.
Qed.

Lemma pagination_trailing_text_witness :
  let v := String.append (JS.decimal (-3)) (String "."%char "5") in
  queryPage (<["page" := v]> ∅) = -3 /\ queryLimit (<["limit" := v]> ∅) = -3
  /\ (Z.abs (-3) < 2 ^ 53 -> JS.toDouble (-3) = -3).
Proof.
  apply (pagination_trailing_text ∅ (-3) "."%char "5"); [discriminate | reflexivity].
Defined.

(** X11.  A negative page: when the page parameter reads as a negative
    integer and the limit is positive, the skip is negative, the store
    refuses the search, and List answers 500 after that one call; the
    posts are not counted. *)
Theorem negative_page_fails (query : gmap string string) (st : Store) (f : Post -> bool) :
  Model.matches (buildQuery query) = Some f ->
  queryPage query < 0 ->
  0 < queryLimit query ->
  getAllPosts query st
    = Some (respond 500 (ServerFailure "Server error while fetching posts") st
              [CallFind (buildQuery query) ((queryPage query - 1) * queryLimit query)
                 (queryLimit query)]).
Proof.
  intros Hf Hp Hl. unfold getAllPosts, Model.find, Model.paginate. rewrite Hf. simpl.
  destruct (Z.ltb_spec ((queryPage query - 1) * queryLimit query) 0); [reflexivity | nia].
Qed.

Lemma negative_page_fails_witness :
  getAllPosts Sample.negativePageQuery Sample.oneStore
    = Some (respond 500 (ServerFailure "Server error while fetching posts") Sample.oneStore
              [CallFind (buildQuery Sample.negativePageQuery)
                 ((queryPage Sample.negativePageQuery - 1)
                  * queryLimit Sample.negativePageQuery)
                 (queryLimit Sample.negativePageQuery)]).
Proof.
  apply (negative_page_fails Sample.negativePageQuery Sample.oneStore (fun _ => true));
    reflexivity.
Defined.

(** ** The JSON form of a post *)

(** X12.  The transform of the schema shows the identifier of a
    document under [id] and never under [_id], and leaves every other
    property as it is.  The JSON form of a post has exactly the
    properties id, title, content, author, createdAt and updatedAt, with
    the values of the post, and two posts with the same JSON form are
    the same post. *)
Theorem toJSON_shape (ret : gmap string Field) (p : Post) :
  transform ret !! "_id" = None
  /\ transform ret !! "id" = ret !! "_id"
  /\ (forall k, k <> "id" -> k <> "_id" -> transform ret !! k = ret !! k)
  /\ toJSON p
     = {[ "id" := FId (_id p); "title" := FString (title p);
          "content" := FString (content p); "author" := FString (author p);
          "createdAt" := FDate (createdAt p); "updatedAt" := FDate (updatedAt p) ]}
  /\ (forall q, toJSON p = toJSON q -> p = q).
Proof.
  assert (Hjson : forall r,
    toJSON r = {[ "id" := FId (_id r); "title" := FString (title r);
                  "content" := FString (content r); "author" := FString (author r);
                  "createdAt" := FDate (createdAt r); "updatedAt" := FDate (updatedAt r) ]}).
  { intros r. apply map_eq. intros k. unfold toJSON, transform, toObject.
    repeat (rewrite ?lookup_insert, ?lookup_delete, ?lookup_singleton, ?lookup_empty;
            simpl; repeat case_decide; simplify_eq; try reflexivity). }
  split; [|split; [|split; [|split]]].
  - unfold transform. apply lookup_delete_eq.
  - unfold transform. rewrite lookup_delete_ne by done.
    destruct (ret !! "_id") eqn:E; [by rewrite lookup_insert_eq | by rewrite lookup_delete_eq].
  - intros k Hid H_id. unfold transform. rewrite lookup_delete_ne by done.
    destruct (ret !! "_id"); [by rewrite lookup_insert_ne | by rewrite lookup_delete_ne].
  - apply Hjson.
  - intros q H. rewrite !Hjson in H.
    assert (Hk : forall k,
      ({[ "id" := FId (_id p); "title" := FString (title p);
          "content" := FString (content p); "author" := FString (author p);
          "createdAt" := FDate (createdAt p); "updatedAt" := FDate (updatedAt p) ]}
         : gmap string Field) !! k
      = ({[ "id" := FId (_id q); "title" := FString (title q);
            "content" := FString (content q); "author" := FString (author q);
            "createdAt" := FDate (createdAt q); "updatedAt" := FDate (updatedAt q) ]}
           : gmap string Field) !! k) by (intros k; by rewrite H).
    pose proof (Hk "id") as H1. pose proof (Hk "title") as H2.
    pose proof (Hk "content") as H3. pose proof (Hk "author") as H4.
    pose proof (Hk "createdAt") as H5. pose proof (Hk "updatedAt") as H6.
    simplify_map_eq. destruct p, q; simpl in *; congruence.
Qed.

(** ** The seeder *)

Section Seeding.
Import Mongoose.

Lemma deleteMany_all (st : Store) :
  Seed.deleteMany {| filterAuthor := None; filterOr := None |} st
    = Some {| posts := []; nextId := nextId st |}.
Proof.
  unfold Seed.deleteMany. simpl. do 2 f_equal.
  induction (posts st) as [|p l IH]; [reflexivity | exact IH].
Qed.

(** [Post.create] on a document of three strings that are trimmed and
    valid. *)
Lemma create_sample (now : Z) (doc : gmap string JS.value) (st : Store) :
  doc !! "title" = Some (JS.VStr (stringAt doc "title")) ->
  doc !! "content" = Some (JS.VStr (stringAt doc "content")) ->
  doc !! "author" = Some (JS.VStr (stringAt doc "author")) ->
  JS.trim (stringAt doc "title") = stringAt doc "title" ->
  JS.trim (stringAt doc "content") = stringAt doc "content" ->
  JS.trim (stringAt doc "author") = stringAt doc "author" ->
  validatePath Schema.title (Some (stringAt doc "title"))
    ++ validatePath Schema.content (Some (stringAt doc "content"))
    ++ validatePath Schema.author (Some (stringAt doc "author")) = [] ->
  Model.create now doc st
    = (Resolved (postOf (nextId st) now doc),
       {| posts := posts st ++ [postOf (nextId st) now doc];
          nextId := N.succ (nextId st) |}).
Proof.
  intros Ht Hc Ha Tt Tc Ta Hv.
  rewrite (create_strings now st doc _ _ _ Ht Hc Ha), Tt, Tc, Ta, Hv. reflexivity.
Qed.

Lemma create_sample_in (now : Z) (doc : gmap string JS.value) (st : Store) :
  doc ∈ Seed.samplePosts ->
  Model.create now doc st
    = (Resolved (postOf (nextId st) now doc),
       {| posts := posts st ++ [postOf (nextId st) now doc];
          nextId := N.succ (nextId st) |}).
Proof.
  intros H. unfold Seed.samplePosts in H.
  repeat (apply elem_of_cons in H as [-> | H]); [| | | inversion H];
    apply create_sample; vm_compute; reflexivity.
Qed.

End Seeding.

(** X13.  Seeding never fails and forgets what was there: from any
    collection it leaves exactly three posts, which carry the title,
    content and author of the three samples unchanged, in their order,
    with three fresh consecutive identifiers and the time of the seeding
    as both timestamps. *)
Theorem seed_three_posts (now : Z) (st : Store) :
  exists a b c : Post,
    Seed.seedDatabase now st
      = Some (Mongoose.Resolved [a; b; c],
              {| posts := [a; b; c]; nextId := N.succ (N.succ (N.succ (nextId st))) |})
    /\ Seed.samplePosts
       = [Seed.document (title a) (content a) (author a);
          Seed.document (title b) (content b) (author b);
          Seed.document (title c) (content c) (author c)]
    /\ _id a = nextId st /\ _id b = N.succ (nextId st)
    /\ _id c = N.succ (N.succ (nextId st))
    /\ Forall (fun p => createdAt p = now /\ updatedAt p = now) [a; b; c].
Proof.
  exists (postOf (nextId st) now Seed.nodePost),
    (postOf (N.succ (nextId st)) now Seed.restPost),
    (postOf (N.succ (N.succ (nextId st))) now Seed.mongoPost).
  split; [|split].
  - unfold Seed.seedDatabase. rewrite deleteMany_all.
    unfold Seed.insertMany, Seed.samplePosts. cbn [mbind option_bind Seed.insertAll].
    rewrite !create_sample_in by (unfold Seed.samplePosts; repeat constructor).
    reflexivity.
  - vm_compute. reflexivity.
  - repeat split; repeat constructor.
Qed.

(** ** The server *)

Section ServerLemmas.
Import Server.

Variable castObjectId : string -> option ObjectId.

Lemma isGet_cases (m : string) : isGet m = true <-> m = "GET" \/ m = "HEAD".
Proof.
  unfold isGet. rewrite orb_true_iff, !String.eqb_eq. reflexivity.
Qed.

(** What the router does with a request, by method and path below the
    mount point. *)
Lemma postRoutes_next (now : Z) (req : Request) (rest : list string) (st : Store) :
  (method req = "POST" -> rest <> []) ->
  (isGet (method req) = true -> forall id, rest <> [] /\ rest <> [id]) ->
  (method req = "PUT" \/ method req = "DELETE" -> forall id, rest <> [id]) ->
  postRoutes castObjectId now req rest st = Next.
Proof.
  intros Hpost Hget Hput. unfold postRoutes.
  destruct rest as [|id [|id' rest]]; [| |reflexivity].
  - destruct (String.eqb_spec (method req) "POST") as [E|_]; [by destruct (Hpost E)|].
    destruct (isGet (method req)); [|reflexivity]. by destruct (Hget eq_refl "").
  - destruct (isGet (method req)); [by destruct (Hget eq_refl id) as [_ H]|].
    destruct (String.eqb_spec (method req) "PUT") as [E|_];
      [by destruct (Hput (or_introl E) id)|].
    destruct (String.eqb_spec (method req) "DELETE") as [E|_];
      [by destruct (Hput (or_intror E) id) | reflexivity].
Qed.

End ServerLemmas.

(** X14.  Only three routes write: whenever the collection after a
    request differs from the collection before it, the request was a
    POST on /api/posts, or a PUT or DELETE on /api/posts/<id> with
    exactly one segment for the identifier.  In particular GET, HEAD and
    OPTIONS requests, and requests that no route matches, never change
    the collection. *)
Theorem only_three_routes_write (castObjectId : string -> option ObjectId) (now : Z)
    (req : Server.Request) (st : Store) (r : Server.Reply) :
  Server.app castObjectId now req st = Some r ->
  Server.storeAfter st r <> st ->
  (Server.method req = "POST"
   /\ Server.stripPrefix ["api"; "posts"] (Server.path req) = Some [])
  \/ ((Server.method req = "PUT" \/ Server.method req = "DELETE")
      /\ exists id, Server.stripPrefix ["api"; "posts"] (Server.path req) = Some [id]).
Proof.
  unfold Server.app. intros Happ Hst.
  destruct (String.eqb_spec (Server.method req) "OPTIONS") as [_|_];
    [injection Happ as <-; by destruct Hst|].
  assert (Hdirect : forall code p, Some (Server.Direct code p) = Some r -> False)
    by (intros code p [= <-]; by destruct Hst).
  destruct (Server.stripPrefix ["api"; "posts"] (Server.path req)) as [rest|] eqn:Hpre.
  - unfold Server.postRoutes, Server.fromController in Happ.
    destruct rest as [|id [|id' rest]].
    + destruct (String.eqb_spec (Server.method req) "POST") as [E|_]; [by left|].
      destruct (Server.isGet (Server.method req)).
      * destruct (getAllPosts (Server.query req) st) as [o|] eqn:Ho; [|discriminate Happ].
        injection Happ as <-. destruct Hst. simpl. by apply store_getAllPosts in Ho.
      * repeat case_match; exfalso; by eapply Hdirect.
    + destruct (Server.isGet (Server.method req)).
      * injection Happ as <-. destruct Hst. simpl. apply store_getPostById.
      * destruct (String.eqb_spec (Server.method req) "PUT") as [E|_];
          [right; split; [by left | by exists id]|].
        destruct (String.eqb_spec (Server.method req) "DELETE") as [E|_];
          [right; split; [by right | by exists id]|].
        repeat case_match; exfalso; by eapply Hdirect.
    + repeat case_match; exfalso; by eapply Hdirect.
  - repeat case_match; exfalso; by eapply Hdirect.
Qed.

Lemma only_three_routes_write_witness :
  (Server.method SampleRequest.deleteHello = "POST"
   /\ Server.stripPrefix ["api"; "posts"] (Server.path SampleRequest.deleteHello) = Some [])
  \/ ((Server.method SampleRequest.deleteHello = "PUT"
       \/ Server.method SampleRequest.deleteHello = "DELETE")
      /\ exists id,
           Server.stripPrefix ["api"; "posts"] (Server.path SampleRequest.deleteHello)
             = Some [id]).
Proof.
  apply (only_three_routes_write hexObjectId 2000 SampleRequest.deleteHello Sample.oneStore
           (Server.FromController
              (deletePost hexObjectId "000000000000000000000000" Sample.oneStore))).
  - reflexivity.
  - simpl. discriminate.
Defined.

(** X15.  Requests that no route takes get 404 "Route <method> <url>
    not found" and reach neither a handler nor the store: every request
    with a method other than GET, HEAD, POST, PUT, DELETE and OPTIONS;
    every POST that is not on /api/posts; and every PUT or DELETE that
    is not on /api/posts/<id>, so that there is no way to update or
    delete the whole collection at once. *)
Theorem unrouted_not_found (castObjectId : string -> option ObjectId) (now : Z)
    (req : Server.Request) (st : Store) :
  Server.method req ∉ ["GET"; "HEAD"; "OPTIONS"] ->
  (Server.method req = "POST" ->
   Server.stripPrefix ["api"; "posts"] (Server.path req) <> Some []) ->
  (Server.method req = "PUT" \/ Server.method req = "DELETE" ->
   forall id, Server.stripPrefix ["api"; "posts"] (Server.path req) <> Some [id]) ->
  Server.app castObjectId now req st = Some (Server.notFound req).
Proof.
  intros Hm Hpost Hput.
  assert (Hget : Server.isGet (Server.method req) = false).
  { destruct (Server.isGet (Server.method req)) eqn:E; [|reflexivity].
    apply isGet_cases in E as [E|E]; destruct Hm; rewrite E; set_solver. }
  assert (Hopt : String.eqb (Server.method req) "OPTIONS" = false).
  { apply String.eqb_neq. intros E. destruct Hm. rewrite E. set_solver. }
  unfold Server.app. rewrite Hopt, Hget. cbn [andb].
  destruct (Server.stripPrefix ["api"; "posts"] (Server.path req)) as [rest|] eqn:Hpre;
    [|reflexivity].
  rewrite postRoutes_next; [reflexivity | | |].
  - intros E ->. by apply Hpost.
  - rewrite Hget. discriminate.
  - intros E id ->. by apply (Hput E id).
Qed.

Lemma unrouted_not_found_witness :
  Server.app hexObjectId 2000 SampleRequest.deleteAll Sample.threeStore
    = Some (Server.notFound SampleRequest.deleteAll).
Proof.
  apply (unrouted_not_found hexObjectId 2000 SampleRequest.deleteAll Sample.threeStore).
  - rewrite !elem_of_cons, elem_of_nil. intros [H | [H | [H | H]]]; try discriminate H.
    exact H.
  - discriminate.
  - intros _ id. discriminate.
Defined.
